(** * RabbitMQ extended Salt modules: client module and state modules

    A shallow embedding of [_modules/rabbitmq_extended.py] and of the three
    state modules [_states/rabbitmq_exchange.py], [_states/rabbitmq_queue.py]
    and [_states/rabbitmq_binding.py].

    Python text is a [string]; Python dicts are [gmap]s; a function that
    shells out is a computation over the log of the commands issued so far,
    and may raise. *)

From Stdlib Require Import ZArith String Ascii List Bool Lia.
From stdpp Require Import base option list gmap strings fin_maps.

Set Warnings "-register-all".
Local Open Scope string_scope.
Local Open Scope Z_scope.
Local Open Scope list_scope.

(** ** Python values that cross the module boundaries *)

(** What [__salt__['cmd.run']] hands back: plain text, or (as
    [_format_response] also anticipates) a structured record with a return
    code and the captured output. *)
Inductive response :=
  | RespText (text : string)
  | RespDict (retcode : Z) (stdout : string).

(** Values produced by [json.loads].  A [JObj] holds the items of the decoded
    dict, so its keys are pairwise distinct; [JNull] is Python's [None].
    Numbers are restricted to integers. *)
Inductive json :=
  | JNull
  | JBool (b : bool)
  | JNum (n : Z)
  | JStr (s : string)
  | JArr (elems : list json)
  | JObj (items : list (string * json)).

(** One element of an argument vector: the port travels as an int. *)
Inductive arg :=
  | AStr (s : string)
  | AInt (n : Z).

Inductive exn :=
  | CommandExecutionError (failed : response)
      (* 'RabbitMQ command failed: {0}'.format(response) *)
  | ShellError (what : string)      (* raised by cmd.run itself *)
  | KeyError (key : string)
  | TypeError
  | ValueError.

Inductive outcome (A : Type) :=
  | Ok (a : A)
  | Raise (e : exn).
Arguments Ok {A} a.
Arguments Raise {A} e.

(** One [cmd.run] invocation ([python_shell] is always [False]). *)
Record cmd_event := CmdEvent { ev_argv : list arg; ev_runas : string }.

(** A computation reads and extends the log of commands. *)
Definition Run (A : Type) : Type := list cmd_event -> outcome A * list cmd_event.

Definition ret_run {A} (a : A) : Run A := fun log => (Ok a, log).
Definition raise_run {A} (e : exn) : Run A := fun log => (Raise e, log).
Definition bind_run {A B} (m : Run A) (k : A -> Run B) : Run B :=
  fun log =>
    match m log with
    | (Ok a, log') => k a log'
    | (Raise e, log') => (Raise e, log')
    end.
Definition bind_outcome {A B} (m : outcome A) (k : A -> outcome B) : outcome B :=
  match m with
  | Ok a => k a
  | Raise e => Raise e
  end.
Definition lift {A} (m : outcome A) : Run A := fun log => (m, log).

Declare Scope run_scope.
Delimit Scope run_scope with run.
Notation "x <- m ;; k" := (bind_run m (fun x => k))
  (at level 100, m at next level, right associativity) : run_scope.
Declare Scope outcome_scope.
Delimit Scope outcome_scope with outcome.
Notation "x <- m ;; k" := (bind_outcome m (fun x => k))
  (at level 100, m at next level, right associativity) : outcome_scope.

(** ** The ambient collaborators

    [__salt__['cmd.run']], [salt.utils.get_user], [json.loads], [json.dumps],
    [str.format] on a non-string value and [__opts__['test']] are supplied by
    Salt and by the Python library. *)
Class Salt := {
  shell : list arg -> string -> list cmd_event -> outcome response;
  get_user : string;
  json_loads : string -> option json;
  json_dumps : gmap string json -> string;
  py_repr : json -> string;
  opts_test : bool;
}.

(** ** Python string primitives *)

(** [sub in s] *)
Fixpoint str_in (sub s : string) : bool :=
  if String.prefix sub s then true
  else match s with
       | EmptyString => false
       | String _ rest => str_in sub rest
       end.

(** [s.startswith(p)] and [s.endswith(p)] *)
Definition startswith (s p : string) : bool := String.prefix p s.
Definition endswith (s p : string) : bool :=
  String.prefix (String.rev p) (String.rev s).

(** [str(b).lower()] *)
Definition bool_lower (b : bool) : string := if b then "true" else "false".

(** ['{0}'.format(v)] *)
Definition py_format `{Salt} (v : json) : string :=
  match v with
  | JStr s => s
  | _ => py_repr v
  end.

(** Truth value of an object, as tested by [if] and [not]. *)
Definition truthy (v : json) : bool :=
  match v with
  | JNull => false
  | JBool b => b
  | JNum n => negb (n =? 0)
  | JStr s => negb (bool_decide (s = ""))
  | JArr l => match l with [] => false | _ => true end
  | JObj o => match o with [] => false | _ => true end
  end.

(** [v == s] for a decoded value [v] and a text [s]. *)
Definition eq_str (v : json) (s : string) : bool :=
  match v with
  | JStr t => bool_decide (t = s)
  | _ => false
  end.

Fixpoint assoc (key : string) (items : list (string * json)) : option json :=
  match items with
  | [] => None
  | (k, v) :: rest => if bool_decide (k = key) then Some v else assoc key rest
  end.

(** [item[key]] *)
Definition getitem (item : json) (key : string) : outcome json :=
  match item with
  | JObj o => match assoc key o with
              | Some v => Ok v
              | None => Raise (KeyError key)
              end
  | _ => Raise TypeError
  end.

Fixpoint chars (s : string) : list json :=
  match s with
  | EmptyString => []
  | String c rest => JStr (String c EmptyString) :: chars rest
  end.

(** The sequence a [for] loop walks over. *)
Definition iterate (v : json) : outcome (list json) :=
  match v with
  | JArr l => Ok l
  | JObj o => Ok (map (fun kv => JStr (fst kv)) o)
  | JStr s => Ok (chars s)
  | _ => Raise TypeError
  end.

(** [json.loads(res)] on what [cmd.run] returned. *)
Definition loads `{Salt} (res : response) : outcome json :=
  match res with
  | RespText s => match json_loads s with
                  | Some v => Ok v
                  | None => Raise ValueError
                  end
  | RespDict _ _ => Raise TypeError
  end.

(** [__salt__['cmd.run'](argv, python_shell=False, runas=runas)] *)
Definition cmd_run `{Salt} (argv : list arg) (runas : string) : Run response :=
  fun log => (shell argv runas log, log ++ [CmdEvent argv runas]).

(** [if runas is None: runas = salt.utils.get_user()] *)
Definition runas_or_user `{Salt} (runas : option string) : string :=
  match runas with
  | None => get_user
  | Some u => u
  end.

(** ** _modules/rabbitmq_extended.py *)

Module rabbitmq_extended.

(** [which] stands for [salt.utils.which]: the path of an executable, or
    [None]. *)
Definition __virtual__ (which : string -> option string) : bool :=
  let rabbitmqctl := negb (bool_decide (which "rabbitmqctl" = None)) in
  let rabbitmqadmin := negb (bool_decide (which "rabbitmqadmin" = None)) in
  rabbitmqctl && rabbitmqadmin.

Definition _format_response (resp : response) (msg : string)
  : outcome (gmap string response) :=
  match resp with
  | RespDict retcode stdout =>
      if negb (retcode =? 0) then Raise (CommandExecutionError resp)
      else Ok {[ stdout := resp ]}
  | RespText text =>
      if str_in "Error" text then Raise (CommandExecutionError resp)
      else Ok {[ msg := resp ]}
  end.

(** [str.splitlines()]: the line boundaries among the code points below 256
    are \n, \r, \r\n, \v, \f, \x1c, \x1d, \x1e and \x85. *)
Definition is_linebreak (c : ascii) : bool :=
  match nat_of_ascii c with
  | 10%nat | 11%nat | 12%nat | 13%nat | 28%nat | 29%nat | 30%nat | 133%nat => true
  | _ => false
  end.

Definition is_cr (c : ascii) : bool := (nat_of_ascii c =? 13)%nat.
Definition is_lf (c : ascii) : bool := (nat_of_ascii c =? 10)%nat.
Definition is_tab (c : ascii) : bool := (nat_of_ascii c =? 9)%nat.

Fixpoint splitlines (s : string) : list string :=
  match s with
  | EmptyString => []
  | String c rest =>
      if is_linebreak c then
        EmptyString ::
          match rest with
          | String c' rest' =>
              if is_cr c && is_lf c' then splitlines rest' else splitlines rest
          | EmptyString => []
          end
      else
        match splitlines rest with
        | [] => [String c EmptyString]
        | line :: lines => String c line :: lines
        end
  end.

(** [row.split('\t', 1)], unpacked into two names: [None] stands for the
    [ValueError] of unpacking a one-element list. *)
Fixpoint split_tab_once (row : string) : option (string * string) :=
  match row with
  | EmptyString => None
  | String c rest =>
      if is_tab c then Some (EmptyString, rest)
      else match split_tab_once rest with
           | Some (key, values) => Some (String c key, values)
           | None => None
           end
  end.

(** [string.split('\t')] *)
Fixpoint split_tab (s : string) : list string :=
  match s with
  | EmptyString => [EmptyString]
  | String c rest =>
      if is_tab c then EmptyString :: split_tab rest
      else match split_tab rest with
           | [] => [String c EmptyString]
           | field :: fields => String c field :: fields
           end
  end.

Definition _safe_output (line : string) : bool :=
  negb (existsb id
    [ startswith line "Listing" && endswith line "...";
      str_in "...done" line;
      startswith line "WARNING:" ]).

Definition _strip_listing_to_done (output_list : list string) : list string :=
  List.filter _safe_output output_list.

(** The values stored by [_output_to_dict]: the empty text of a bare key, or
    whatever [values_mapper] made of the rest of the row. *)
Inductive cell :=
  | CStr (s : string)
  | CList (fields : list string).

(** The body of the [for row in data_rows] loop. *)
Definition _output_to_dict_row (values_mapper : string -> cell)
    (ret : gmap string cell) (row : string) : gmap string cell :=
  match split_tab_once row with
  | None => <[ row := CStr "" ]> ret
  | Some (key, values) => <[ key := values_mapper values ]> ret
  end.

Definition _output_to_dict (cmdoutput : string)
    (values_mapper : option (string -> cell)) : gmap string cell :=
  let values_mapper :=
    match values_mapper with
    | None => fun s => CList (split_tab s)
    | Some f => f
    end in
  let data_rows := _strip_listing_to_done (splitlines cmdoutput) in
  fold_left (_output_to_dict_row values_mapper) data_rows ∅.

Section Client.
Context `{Salt}.
Local Open Scope run_scope.

(** [for item in items: if item['name'] == name: return True] then
    [return False] *)
Fixpoint name_listed (name : string) (items : list json) : outcome bool :=
  match items with
  | [] => Ok false
  | item :: rest =>
      (v <- getitem item "name" ;;
       if eq_str v name then Ok true else name_listed name rest)%outcome
  end.

(** [a and b] on conditions that may raise. *)
Definition and_then (a b : outcome bool) : outcome bool :=
  (x <- a ;; if x then b else Ok false)%outcome.

Definition field_is (item : json) (key value : string) : outcome bool :=
  (v <- getitem item key ;; Ok (eq_str v value))%outcome.

(** The condition of the [if] in both binding lookups. *)
Definition binding_matches (item : json)
    (name destination destination_type routing_key vhost : string) : outcome bool :=
  and_then (field_is item "source" name)
    (and_then (field_is item "destination" destination)
       (and_then (field_is item "destination_type" destination_type)
          (and_then (field_is item "routing_key" routing_key)
             (field_is item "vhost" vhost)))).

Fixpoint binding_listed (name destination destination_type routing_key vhost : string)
    (items : list json) : outcome bool :=
  match items with
  | [] => Ok false
  | item :: rest =>
      (hit <- binding_matches item name destination destination_type routing_key vhost ;;
       if hit then Ok true
       else binding_listed name destination destination_type routing_key vhost rest)%outcome
  end.

Fixpoint binding_props (name destination destination_type routing_key vhost : string)
    (items : list json) : outcome json :=
  match items with
  | [] => Ok JNull
  | item :: rest =>
      (hit <- binding_matches item name destination destination_type routing_key vhost ;;
       if hit then getitem item "properties_key"
       else binding_props name destination destination_type routing_key vhost rest)%outcome
  end.

Definition exchange_exists (name host : string) (port : Z)
    (user passwd vhost : string) (runas : option string) : Run bool :=
  let runas := runas_or_user runas in
  res <- cmd_run
    [AStr "rabbitmqadmin"; AStr "list"; AStr "exchanges"; AStr "-H"; AStr host;
     AStr "-P"; AInt port; AStr "-u"; AStr user; AStr "-p"; AStr passwd;
     AStr "-V"; AStr vhost; AStr "--format=raw_json"] runas ;;
  items <- lift (v <- loads res ;; iterate v)%outcome ;;
  lift (name_listed name items).

Definition queue_exists (name host : string) (port : Z)
    (user passwd vhost : string) (runas : option string) : Run bool :=
  let runas := runas_or_user runas in
  res <- cmd_run
    [AStr "rabbitmqadmin"; AStr "list"; AStr "queues"; AStr "-H"; AStr host;
     AStr "-P"; AInt port; AStr "-u"; AStr user; AStr "-p"; AStr passwd;
     AStr "-V"; AStr vhost; AStr "--format=raw_json"] runas ;;
  items <- lift (v <- loads res ;; iterate v)%outcome ;;
  lift (name_listed name items).

Definition binding_exists (name destination destination_type routing_key host : string)
    (port : Z) (user passwd vhost : string) (runas : option string) : Run bool :=
  let runas := runas_or_user runas in
  res <- cmd_run
    [AStr "rabbitmqadmin"; AStr "list"; AStr "bindings"; AStr "-H"; AStr host;
     AStr "-P"; AInt port; AStr "-u"; AStr user; AStr "-p"; AStr passwd;
     AStr "-V"; AStr vhost; AStr "--format=raw_json"] runas ;;
  items <- lift (v <- loads res ;; iterate v)%outcome ;;
  lift (binding_listed name destination destination_type routing_key vhost items).

Definition binding_exists_with_props
    (name destination destination_type routing_key host : string)
    (port : Z) (user passwd vhost : string) (runas : option string) : Run json :=
  let runas := runas_or_user runas in
  res <- cmd_run
    [AStr "rabbitmqadmin"; AStr "list"; AStr "bindings"; AStr "-H"; AStr host;
     AStr "-P"; AInt port; AStr "-u"; AStr user; AStr "-p"; AStr passwd;
     AStr "-V"; AStr vhost; AStr "--format=raw_json"] runas ;;
  items <- lift (v <- loads res ;; iterate v)%outcome ;;
  lift (binding_props name destination destination_type routing_key vhost items).

(** [args = {}; for item in arguments: args.update(item)] *)
Definition flatten_arguments (arguments : list (gmap string json)) : gmap string json :=
  fold_left (fun args item => item ∪ args) arguments ∅.

Definition add_exchange (exchange host : string) (port : Z)
    (user passwd vhost type : string) (durable internal auto_delete : bool)
    (arguments : list (gmap string json)) (runas : option string)
  : Run (gmap string response) :=
  let runas := runas_or_user runas in
  let args := flatten_arguments arguments in
  res <- cmd_run
    [AStr "rabbitmqadmin"; AStr "declare"; AStr "exchange"; AStr "-H"; AStr host;
     AStr "-P"; AInt port; AStr "-u"; AStr user; AStr "-p"; AStr passwd;
     AStr "-V"; AStr vhost;
     AStr ("name=" +:+ exchange); AStr ("type=" +:+ type);
     AStr ("durable=" +:+ bool_lower durable);
     AStr ("internal=" +:+ bool_lower internal);
     AStr ("auto_delete=" +:+ bool_lower auto_delete);
     AStr ("arguments=" +:+ json_dumps args)] runas ;;
  let msg := "Added" in
  lift (_format_response res msg).

Definition add_queue (queue host : string) (port : Z)
    (user passwd vhost : string) (durable auto_delete : bool)
    (arguments : list (gmap string json)) (runas : option string)
  : Run (gmap string response) :=
  let runas := runas_or_user runas in
  let args := flatten_arguments arguments in
  res <- cmd_run
    [AStr "rabbitmqadmin"; AStr "declare"; AStr "queue"; AStr "-H"; AStr host;
     AStr "-P"; AInt port; AStr "-u"; AStr user; AStr "-p"; AStr passwd;
     AStr "-V"; AStr vhost;
     AStr ("name=" +:+ queue);
     AStr ("durable=" +:+ bool_lower durable);
     AStr ("auto_delete=" +:+ bool_lower auto_delete);
     AStr ("arguments=" +:+ json_dumps args)] runas ;;
  let msg := "Added" in
  lift (_format_response res msg).

Definition add_binding (binding destination destination_type routing_key host : string)
    (port : Z) (user passwd vhost : string)
    (arguments : list (gmap string json)) (runas : option string)
  : Run (gmap string response) :=
  let runas := runas_or_user runas in
  let args := flatten_arguments arguments in
  res <- cmd_run
    [AStr "rabbitmqadmin"; AStr "declare"; AStr "binding"; AStr "-H"; AStr host;
     AStr "-P"; AInt port; AStr "-u"; AStr user; AStr "-p"; AStr passwd;
     AStr "-V"; AStr vhost;
     AStr ("source=" +:+ binding);
     AStr ("destination_type=" +:+ destination_type);
     AStr ("destination=" +:+ destination);
     AStr ("routing_key=" +:+ routing_key);
     AStr ("arguments=" +:+ json_dumps args)] runas ;;
  let msg := "Added" in
  lift (_format_response res msg).

Definition delete_exchange (exchange host : string) (port : Z)
    (user passwd vhost : string) (runas : option string)
  : Run (gmap string response) :=
  let runas := runas_or_user runas in
  res <- cmd_run
    [AStr "rabbitmqadmin"; AStr "delete"; AStr "exchange";
     AStr ("name=" +:+ exchange); AStr "-H"; AStr host;
     AStr "-P"; AInt port; AStr "-u"; AStr user; AStr "-p"; AStr passwd;
     AStr "-V"; AStr vhost; AStr "--format=table"] runas ;;
  let msg := "Deleted" in
  lift (_format_response res msg).

Definition delete_queue (queue host : string) (port : Z)
    (user passwd vhost : string) (runas : option string)
  : Run (gmap string response) :=
  let runas := runas_or_user runas in
  res <- cmd_run
    [AStr "rabbitmqadmin"; AStr "delete"; AStr "queue";
     AStr ("name=" +:+ queue); AStr "-H"; AStr host;
     AStr "-P"; AInt port; AStr "-u"; AStr user; AStr "-p"; AStr passwd;
     AStr "-V"; AStr vhost; AStr "--format=table"] runas ;;
  let msg := "Deleted" in
  lift (_format_response res msg).

Definition delete_binding (binding destination destination_type : string)
    (properties_key : json) (host : string) (port : Z)
    (user passwd vhost : string) (runas : option string)
  : Run (gmap string response) :=
  let runas := runas_or_user runas in
  res <- cmd_run
    [AStr "rabbitmqadmin"; AStr "delete"; AStr "binding";
     AStr ("source=" +:+ binding); AStr ("destination=" +:+ destination);
     AStr ("destination_type=" +:+ destination_type);
     AStr ("properties_key=" +:+ py_format properties_key);
     AStr "-H"; AStr host;
     AStr "-P"; AInt port; AStr "-u"; AStr user; AStr "-p"; AStr passwd;
     AStr "-V"; AStr vhost; AStr "--format=table"] runas ;;
  let msg := "Deleted" in
  lift (_format_response res msg).

End Client.

End rabbitmq_extended.

(** ** The state modules *)

(** The record every state function returns:
    [{'name': .., 'result': .., 'comment': .., 'changes': ..}].
    [result] is [True], [False] or [None]; [comment] is a text or, when it is
    taken out of a client result, whatever response the client wrapped. *)
Record state_ret := StateRet {
  ret_name : string;
  ret_result : option bool;
  ret_comment : response;
  ret_changes : gmap string string;
}.

Definition set_result (r : option bool) (ret : state_ret) : state_ret :=
  StateRet (ret_name ret) r (ret_comment ret) (ret_changes ret).
Definition set_comment (c : response) (ret : state_ret) : state_ret :=
  StateRet (ret_name ret) (ret_result ret) c (ret_changes ret).
Definition set_changes (ch : gmap string string) (ret : state_ret) : state_ret :=
  StateRet (ret_name ret) (ret_result ret) (ret_comment ret) ch.

(** [{'name': name, 'result': True, 'comment': '', 'changes': {}}] *)
Definition initial_ret (name : string) : state_ret :=
  StateRet name (Some true) (RespText "") ∅.

(** ** _states/rabbitmq_exchange.py *)

Module rabbitmq_exchange.

Definition __virtual__ (which : string -> option string) : bool :=
  negb (bool_decide (which "rabbitmqadmin" = None)).

Section States.
Context `{Salt}.
Local Open Scope run_scope.

Definition present (name user passwd type : string)
    (durable internal auto_delete : bool) (port : Z) (vhost : string)
    (arguments : list (gmap string json)) : Run state_ret :=
  let ret := initial_ret name in
  exchange_exists <-
    rabbitmq_extended.exchange_exists name "localhost" port user passwd vhost None ;;
  if exchange_exists : bool then
    ret_run (set_comment
      (RespText ("Exchange '" +:+ name +:+ "' for vhost '" +:+ vhost +:+ "' already exists.")) ret)
  else
    (* the code after the [if not __opts__['test']] block *)
    let finish ret :=
      let ret := set_changes {[ "old" := ""; "new" := name ]} ret in
      if opts_test then
        set_comment
          (RespText ("Exchange '" +:+ name +:+ "' for vhost '" +:+ vhost +:+ "' will be created."))
          (set_result None ret)
      else ret in
    if negb opts_test then
      result <- rabbitmq_extended.add_exchange name "localhost" port user passwd vhost
                  type durable internal auto_delete arguments None ;;
      match (result : gmap string response) !! "Error" with
      | Some err => ret_run (set_comment err (set_result (Some false) ret))
      | None =>
          match result !! "Added" with
          | Some added => ret_run (finish (set_comment added ret))
          | None => ret_run (finish ret)
          end
      end
    else ret_run (finish ret).

Definition absent (name user passwd : string) (port : Z) (vhost : string)
  : Run state_ret :=
  let ret := initial_ret name in
  exchange_exists <-
    rabbitmq_extended.exchange_exists name "localhost" port user passwd vhost None ;;
  if negb exchange_exists then
    ret_run (set_comment
      (RespText ("Exchange '" +:+ name +:+ "' for vhost '" +:+ vhost +:+ "' already not exists.")) ret)
  else
    let finish ret :=
      let ret := set_changes {[ "new" := ""; "old" := name ]} ret in
      if opts_test then
        set_comment
          (RespText ("Exchange '" +:+ name +:+ "' will be removed from vhost '" +:+ vhost +:+ "'."))
          (set_result None ret)
      else ret in
    if negb opts_test then
      result <- rabbitmq_extended.delete_exchange name "localhost" port user passwd vhost None ;;
      match (result : gmap string response) !! "Error" with
      | Some err => ret_run (set_comment err (set_result (Some false) ret))
      | None =>
          match result !! "Deleted" with
          | Some deleted => ret_run (finish (set_comment deleted ret))
          | None => ret_run (finish ret)
          end
      end
    else ret_run (finish ret).

End States.
End rabbitmq_exchange.

(** ** _states/rabbitmq_queue.py *)

Module rabbitmq_queue.

Definition __virtual__ (which : string -> option string) : bool :=
  negb (bool_decide (which "rabbitmqadmin" = None)).

Section States.
Context `{Salt}.
Local Open Scope run_scope.

Definition present (name user passwd : string)
    (durable auto_delete : bool) (port : Z) (vhost : string)
    (arguments : list (gmap string json)) : Run state_ret :=
  let ret := initial_ret name in
  queue_exists <-
    rabbitmq_extended.queue_exists name "localhost" port user passwd vhost None ;;
  if queue_exists : bool then
    ret_run (set_comment
      (RespText ("Queue '" +:+ name +:+ "' for vhost '" +:+ vhost +:+ "' already exists.")) ret)
  else
    let finish ret :=
      let ret := set_changes {[ "old" := ""; "new" := name ]} ret in
      if opts_test then
        set_comment
          (RespText ("Queue '" +:+ name +:+ "' for vhost '" +:+ vhost +:+ "' will be created."))
          (set_result None ret)
      else ret in
    if negb opts_test then
      result <- rabbitmq_extended.add_queue name "localhost" port user passwd vhost
                  durable auto_delete arguments None ;;
      match (result : gmap string response) !! "Error" with
      | Some err => ret_run (set_comment err (set_result (Some false) ret))
      | None =>
          match result !! "Added" with
          | Some added => ret_run (finish (set_comment added ret))
          | None => ret_run (finish ret)
          end
      end
    else ret_run (finish ret).

Definition absent (name user passwd : string) (port : Z) (vhost : string)
  : Run state_ret :=
  let ret := initial_ret name in
  queue_exists <-
    rabbitmq_extended.queue_exists name "localhost" port user passwd vhost None ;;
  if negb queue_exists then
    ret_run (set_comment
      (RespText ("Queue '" +:+ name +:+ "' for vhost '" +:+ vhost +:+ "' already not exists.")) ret)
  else
    let finish ret :=
      let ret := set_changes {[ "new" := ""; "old" := name ]} ret in
      if opts_test then
        set_comment
          (RespText ("Queue '" +:+ name +:+ "' will be removed from vhost '" +:+ vhost +:+ "'."))
          (set_result None ret)
      else ret in
    if negb opts_test then
      result <- rabbitmq_extended.delete_queue name "localhost" port user passwd vhost None ;;
      match (result : gmap string response) !! "Error" with
      | Some err => ret_run (set_comment err (set_result (Some false) ret))
      | None =>
          match result !! "Deleted" with
          | Some deleted => ret_run (finish (set_comment deleted ret))
          | None => ret_run (finish ret)
          end
      end
    else ret_run (finish ret).

End States.
End rabbitmq_queue.

(** ** _states/rabbitmq_binding.py *)

Module rabbitmq_binding.

Definition __virtual__ (which : string -> option string) : bool :=
  negb (bool_decide (which "rabbitmqadmin" = None)).

Section States.
Context `{Salt}.
Local Open Scope run_scope.

Definition present (name destination destination_type routing_key user passwd : string)
    (port : Z) (vhost : string)
    (arguments : list (gmap string json)) : Run state_ret :=
  let ret := initial_ret name in
  binding_exists <-
    rabbitmq_extended.binding_exists name destination destination_type routing_key
      "localhost" port user passwd vhost None ;;
  if binding_exists : bool then
    ret_run (set_comment
      (RespText ("Binding '" +:+ name +:+ "' for vhost '" +:+ vhost +:+ "' already exists.")) ret)
  else
    let finish ret :=
      let ret := set_changes {[ "old" := ""; "new" := name ]} ret in
      if opts_test then
        set_comment
          (RespText ("Binding '" +:+ name +:+ "' for vhost '" +:+ vhost +:+ "' will be created."))
          (set_result None ret)
      else ret in
    if negb opts_test then
      result <- rabbitmq_extended.add_binding name destination destination_type routing_key
                  "localhost" port user passwd vhost arguments None ;;
      match (result : gmap string response) !! "Error" with
      | Some err => ret_run (set_comment err (set_result (Some false) ret))
      | None =>
          match result !! "Added" with
          | Some added => ret_run (finish (set_comment added ret))
          | None => ret_run (finish ret)
          end
      end
    else ret_run (finish ret).

Definition absent (name destination routing_key destination_type user passwd : string)
    (port : Z) (vhost : string) : Run state_ret :=
  let ret := initial_ret name in
  properties_key <-
    rabbitmq_extended.binding_exists_with_props name destination destination_type routing_key
      "localhost" port user passwd vhost None ;;
  if negb (truthy properties_key) then
    ret_run (set_comment
      (RespText ("Binding '" +:+ name +:+ "' for vhost '" +:+ vhost +:+ "' not exists.")) ret)
  else
    let finish ret :=
      let ret := set_changes {[ "new" := ""; "old" := name ]} ret in
      if opts_test then
        set_comment
          (RespText ("Exchange '" +:+ name +:+ "' will be removed from vhost '" +:+ vhost +:+ "'."))
          (set_result None ret)
      else ret in
    if negb opts_test then
      result <- rabbitmq_extended.delete_binding name destination destination_type properties_key
                  "localhost" port user passwd vhost None ;;
      match (result : gmap string response) !! "Error" with
      | Some err => ret_run (set_comment err (set_result (Some false) ret))
      | None =>
          match result !! "Deleted" with
          | Some deleted => ret_run (finish (set_comment deleted ret))
          | None => ret_run (finish ret)
          end
      end
    else ret_run (finish ret).

End States.
End rabbitmq_binding.

(** ** The six state functions behind one interface *)

Inductive kind := Exchange | Queue | Binding.
Inductive goal := Present | Absent.

(** The fields a state declaration may carry; each state function reads the
    ones in its signature. *)
Record descriptor := Descriptor {
  d_name : string;
  d_destination : string;
  d_destination_type : string;
  d_routing_key : string;
  d_user : string;
  d_passwd : string;
  d_port : Z;
  d_vhost : string;
  d_type : string;
  d_durable : bool;
  d_internal : bool;
  d_auto_delete : bool;
  d_arguments : list (gmap string json);
}.

Section Dispatch.
Context `{Salt}.
Local Open Scope run_scope.

Definition state_run (g : goal) (k : kind) (d : descriptor) : Run state_ret :=
  match g, k with
  | Present, Exchange =>
      rabbitmq_exchange.present (d_name d) (d_user d) (d_passwd d) (d_type d)
        (d_durable d) (d_internal d) (d_auto_delete d) (d_port d) (d_vhost d) (d_arguments d)
  | Absent, Exchange =>
      rabbitmq_exchange.absent (d_name d) (d_user d) (d_passwd d) (d_port d) (d_vhost d)
  | Present, Queue =>
      rabbitmq_queue.present (d_name d) (d_user d) (d_passwd d)
        (d_durable d) (d_auto_delete d) (d_port d) (d_vhost d) (d_arguments d)
  | Absent, Queue =>
      rabbitmq_queue.absent (d_name d) (d_user d) (d_passwd d) (d_port d) (d_vhost d)
  | Present, Binding =>
      rabbitmq_binding.present (d_name d) (d_destination d) (d_destination_type d)
        (d_routing_key d) (d_user d) (d_passwd d) (d_port d) (d_vhost d) (d_arguments d)
  | Absent, Binding =>
      rabbitmq_binding.absent (d_name d) (d_destination d) (d_routing_key d)
        (d_destination_type d) (d_user d) (d_passwd d) (d_port d) (d_vhost d)
  end.

(** The existence check each state function starts with, as the truth value
    its [if] tests. *)
Definition state_check (g : goal) (k : kind) (d : descriptor) : Run bool :=
  match k, g with
  | Exchange, _ =>
      rabbitmq_extended.exchange_exists (d_name d) "localhost" (d_port d)
        (d_user d) (d_passwd d) (d_vhost d) None
  | Queue, _ =>
      rabbitmq_extended.queue_exists (d_name d) "localhost" (d_port d)
        (d_user d) (d_passwd d) (d_vhost d) None
  | Binding, Present =>
      rabbitmq_extended.binding_exists (d_name d) (d_destination d)
        (d_destination_type d) (d_routing_key d) "localhost" (d_port d)
        (d_user d) (d_passwd d) (d_vhost d) None
  | Binding, Absent =>
      properties_key <-
        rabbitmq_extended.binding_exists_with_props (d_name d) (d_destination d)
          (d_destination_type d) (d_routing_key d) "localhost" (d_port d)
          (d_user d) (d_passwd d) (d_vhost d) None ;;
      ret_run (truthy properties_key)
  end.

End Dispatch.

Definition kind_label (k : kind) : string :=
  match k with
  | Exchange => "Exchange"
  | Queue => "Queue"
  | Binding => "Binding"
  end.

(** The comments of the two no-op returns. *)
Definition already_exists_comment (k : kind) (d : descriptor) : response :=
  RespText (kind_label k +:+ " '" +:+ d_name d +:+ "' for vhost '" +:+ d_vhost d
            +:+ "' already exists.").

Definition not_exists_comment (k : kind) (d : descriptor) : response :=
  RespText (kind_label k +:+ " '" +:+ d_name d +:+ "' for vhost '" +:+ d_vhost d
            +:+ match k with
                | Binding => "' not exists."
                | _ => "' already not exists."
                end).

(** The change record of a creation and of a removal. *)
Definition changes_of (g : goal) (d : descriptor) : gmap string string :=
  match g with
  | Present => {[ "old" := ""; "new" := d_name d ]}
  | Absent => {[ "new" := ""; "old" := d_name d ]}
  end.

(** Whether the entity is where the goal wants it. *)
Definition converged (g : goal) (found : bool) : bool :=
  match g with
  | Present => found
  | Absent => negb found
  end.

(** ** Reading the command log *)

(** The rabbitmqadmin subcommand: [list], [declare] or [delete]. *)
Definition ev_action (ev : cmd_event) : option string :=
  match ev_argv ev with
  | _ :: AStr action :: _ => Some action
  | _ => None
  end.

Definition action_is (action : string) (ev : cmd_event) : bool :=
  match ev_action ev with
  | Some a => String.eqb a action
  | None => false
  end.

Definition is_listing : cmd_event -> bool := action_is "list".
Definition is_declare : cmd_event -> bool := action_is "declare".
Definition is_delete : cmd_event -> bool := action_is "delete".
Definition is_mutating (ev : cmd_event) : bool := is_declare ev || is_delete ev.

(** The value that follows the first occurrence of an option flag. *)
Fixpoint option_value (flag : string) (argv : list arg) : option arg :=
  match argv with
  | [] => None
  | AStr s :: rest =>
      if String.eqb s flag then head rest else option_value flag rest
  | AInt _ :: rest => option_value flag rest
  end.

Definition ev_host (ev : cmd_event) : option arg := option_value "-H" (ev_argv ev).

(** ** A small broker stand-in

    The admin CLI answers every [list] command with [listing] and every other
    command with [reply]; the decoder knows the listings used below. *)
Definition orders_binding (properties_key : string) : json :=
  JObj [("source", JStr "orders"); ("vhost", JStr "/");
        ("destination", JStr "invoices"); ("destination_type", JStr "queue");
        ("routing_key", JStr "eu"); ("arguments", JObj []);
        ("properties_key", JStr properties_key)].

Definition demo_loads (text : string) : option json :=
  if String.eqb text "[]" then Some (JArr [])
  else if String.eqb text "[orders]" then
    Some (JArr [JObj [("name", JStr "orders"); ("vhost", JStr "/")]])
  else if String.eqb text "[orders->invoices]" then
    Some (JArr [orders_binding "eu"])
  else if String.eqb text "[orders->invoices, blank key]" then
    Some (JArr [orders_binding ""])
  else None.

Definition demo_shell (listing : string) (reply : response)
    (argv : list arg) (runas : string) (log : list cmd_event) : outcome response :=
  if is_listing (CmdEvent argv runas) then Ok (RespText listing) else Ok reply.

Definition demo_salt (listing : string) (reply : response) (test : bool) : Salt :=
  {| shell := demo_shell listing reply;
     get_user := "root";
     json_loads := demo_loads;
     json_dumps := fun _ => "{}";
     py_repr := fun _ => "None";
     opts_test := test |}.

Definition demo_descriptor : descriptor :=
  Descriptor "orders" "invoices" "queue" "eu" "guest" "guest" 15672 "/"
    "fanout" false false false [].

(** ** What the state functions are expected to return *)

(** The record of a no-op: the entity is already where the goal wants it. *)
Definition noop_ret (g : goal) (k : kind) (d : descriptor) : state_ret :=
  StateRet (d_name d) (Some true)
    (match g with
     | Present => already_exists_comment k d
     | Absent => not_exists_comment k d
     end) ∅.

(** The record of a dry run that predicts a change. *)
Definition pending_ret (g : goal) (k : kind) (d : descriptor) : state_ret :=
  StateRet (d_name d) None
    (RespText
       match g with
       | Present =>
           kind_label k +:+ " '" +:+ d_name d +:+ "' for vhost '" +:+ d_vhost d
           +:+ "' will be created."
       | Absent =>
           match k with Queue => "Queue" | _ => "Exchange" end
           +:+ " '" +:+ d_name d +:+ "' will be removed from vhost '" +:+ d_vhost d
           +:+ "'."
       end)
    (changes_of g d).

(** The status label of the mutating client call of a goal. *)
Definition status_label (g : goal) : string :=
  match g with
  | Present => "Added"
  | Absent => "Deleted"
  end.

(** The rabbitmqadmin subcommand of the mutating client call of a goal. *)
Definition mutation_of (g : goal) : string :=
  match g with
  | Present => "declare"
  | Absent => "delete"
  end.

(** The record built from the result of a mutating client call. *)
Definition applied_ret (g : goal) (d : descriptor) (result : gmap string response)
  : state_ret :=
  match result !! "Error" with
  | Some err => StateRet (d_name d) (Some false) err ∅
  | None =>
      StateRet (d_name d) (Some true)
        (default (RespText "") (result !! status_label g)) (changes_of g d)
  end.

(** ** Binding records and their identity *)

(** A record of [list bindings]: an object that carries the five identity
    fields and the server-assigned [properties_key]. *)
Definition binding_record (item : json) : Prop :=
  forall key,
    In key ["source"; "destination"; "destination_type"; "routing_key"; "vhost";
            "properties_key"] ->
    exists v, getitem item key = Ok v.

(** The identity of a binding: five fields, neither [arguments] nor
    [properties_key]. *)
Definition same_binding (name destination destination_type routing_key vhost : string)
    (item : json) : Prop :=
  getitem item "source" = Ok (JStr name)
  /\ getitem item "destination" = Ok (JStr destination)
  /\ getitem item "destination_type" = Ok (JStr destination_type)
  /\ getitem item "routing_key" = Ok (JStr routing_key)
  /\ getitem item "vhost" = Ok (JStr vhost).

(** ** Rows of a tab-delimited listing *)

(** The text ['\t']. *)
Definition TAB : string := String (ascii_of_nat 9) EmptyString.

(** The texts ['\n'] and ['\r']. *)
Definition LF : string := String (ascii_of_nat 10) EmptyString.
Definition CR : string := String (ascii_of_nat 13) EmptyString.

(** A permission listing as rabbitmqctl prints it, with a bare ["/"] row. *)
Definition demo_listing : string :=
  "Listing permissions for user guest ..." +:+ LF
  +:+ "/" +:+ LF
  +:+ "staging" +:+ TAB +:+ ".*" +:+ TAB +:+ "" +:+ TAB +:+ ".*" +:+ CR +:+ LF
  +:+ "...done" +:+ LF.

(** The key under which [_output_to_dict] files a row. *)
Definition row_key (row : string) : string :=
  match rabbitmq_extended.split_tab_once row with
  | Some (key, _) => key
  | None => row
  end.

(** ** Vocabulary for the properties of the remaining code *)

(** The admin CLI answers every [list] command issued at [log] with [r]. *)
Definition listing_answer `{Salt} (log : list cmd_event) (r : outcome response) : Prop :=
  forall argv runas, is_listing (CmdEvent argv runas) = true -> shell argv runas log = r.

(** The admin CLI answers the command [g] calls for, issued at [log], with [r]. *)
Definition mutation_answer `{Salt} (g : goal) (log : list cmd_event)
    (r : outcome response) : Prop :=
  forall argv runas,
    action_is (mutation_of g) (CmdEvent argv runas) = true -> shell argv runas log = r.

(** A record of [list exchanges] or [list queues] has a name; [named] is the
    test of the existence checks. *)
Definition name_record (item : json) : Prop := exists v, getitem item "name" = Ok v.
Definition named (name : string) (item : json) : Prop :=
  getitem item "name" = Ok (JStr name).

(** Two descriptors that name the same entity on the same connection; they
    may differ in type, durable, internal, auto_delete and arguments. *)
Definition same_identity (d d' : descriptor) : Prop :=
  d_name d = d_name d'
  /\ d_destination d = d_destination d'
  /\ d_destination_type d = d_destination_type d'
  /\ d_routing_key d = d_routing_key d'
  /\ d_user d = d_user d'
  /\ d_passwd d = d_passwd d'
  /\ d_port d = d_port d'
  /\ d_vhost d = d_vhost d'.

(** ['\t'.join(fields)] *)
Fixpoint join_tab (fields : list string) : string :=
  match fields with
  | [] => ""
  | [field] => field
  | field :: rest => field +:+ TAB +:+ join_tab rest
  end.

(** The value [_output_to_dict] stores for a row. *)
Definition row_value (values_mapper : option (string -> rabbitmq_extended.cell))
    (row : string) : rabbitmq_extended.cell :=
  match rabbitmq_extended.split_tab_once row with
  | None => rabbitmq_extended.CStr ""
  | Some (_, values) =>
      match values_mapper with
      | None => rabbitmq_extended.CList (rabbitmq_extended.split_tab values)
      | Some f => f values
      end
  end.

(** The characters of a text. *)
Fixpoint str_chars (s : string) : list ascii :=
  match s with
  | EmptyString => []
  | String c rest => c :: str_chars rest
  end.

(** A host on which only rabbitmqadmin is installed. *)
Definition admin_only (program : string) : option string :=
  if String.eqb program "rabbitmqadmin" then Some "/usr/local/bin/rabbitmqadmin"
  else None.

(** ** Proofs *)

Import rabbitmq_extended.

Ltac unfold_run :=
  unfold bind_run, cmd_run, lift, ret_run, raise_run, bind_outcome in *.

(** Case analysis on the innermost scrutinee of the goal. *)
Ltac split_match :=
  match goal with
  | |- context [match ?x with _ => _ end] =>
      lazymatch x with
      | context [match _ with _ => _ end] => fail
      | _ => destruct x eqn:?
      end
  end.

(** One step through a state function: name the command it issues when the
    goal asks for one, otherwise split on what the shell or a decoder
    returned. *)
Ltac run_step :=
  lazymatch goal with
  | |- ex _ =>
      match goal with
      | |- context [shell ?a ?u (_ ++ _)] =>
          exists (CmdEvent a u); split; [reflexivity | split; [reflexivity |]];
          cbn [ev_argv ev_runas]
      end
  | |- _ =>
      first [ reflexivity
            | rewrite <- app_assoc; reflexivity
            | split_match; simpl ]
  end.

Ltac unfold_states :=
  unfold rabbitmq_exchange.present, rabbitmq_exchange.absent,
    rabbitmq_queue.present, rabbitmq_queue.absent,
    rabbitmq_binding.present, rabbitmq_binding.absent,
    exchange_exists, queue_exists, binding_exists, binding_exists_with_props,
    add_exchange, add_queue, add_binding,
    delete_exchange, delete_queue, delete_binding.

Section Proofs.
Context `{Salt}.

(** *** Text primitives *)

Lemma prefix_spec p s : String.prefix p s = true <-> exists post, s = p +:+ post.
Proof.
  revert s. induction p as [| a p IH]; intros s.
  - split; [intros _; exists s; reflexivity | intros _; destruct s; reflexivity].
  - destruct s as [| b s]; simpl.
    + split; [discriminate | intros [post [=]]].
    + destruct (ascii_dec a b) as [<- | Hne].
      * rewrite IH. split; intros [post Hpost]; exists post; [subst s | injection Hpost];
          auto.
      * split; [discriminate | intros [post [=]]; congruence].
Qed.

Lemma str_in_cons sub c rest :
  str_in sub (String c rest)
  = if String.prefix sub (String c rest) then true else str_in sub rest.
Proof. reflexivity. Qed.

(** [str_in] is Python's substring test. *)
Lemma str_in_spec sub s :
  str_in sub s = true <-> exists pre post, s = pre +:+ sub +:+ post.
Proof.
  split.
  - induction s as [| c rest IH].
    + simpl. destruct sub; [| discriminate]. intros _. exists "", "". reflexivity.
    + rewrite str_in_cons. destruct (String.prefix sub (String c rest)) eqn:Hp.
      * intros _. apply prefix_spec in Hp as [post ->]. exists "", post. reflexivity.
      * intros Hrest. destruct (IH Hrest) as (pre & post & ->).
        exists (String c pre), post. reflexivity.
  - intros (pre & post & ->). induction pre as [| c pre IH].
    + assert (Hp : String.prefix sub ("" +:+ sub +:+ post) = true)
        by (apply prefix_spec; exists post; reflexivity).
      remember ("" +:+ sub +:+ post) as s eqn:Hs. clear Hs.
      destruct s; [| rewrite str_in_cons, Hp; reflexivity].
      destruct sub; [reflexivity | discriminate].
    + change (String c pre +:+ sub +:+ post) with (String c (pre +:+ sub +:+ post)).
      rewrite str_in_cons, IH. destruct (String.prefix _ _); reflexivity.
Qed.

Example splitlines_demo :
  splitlines demo_listing
  = [ "Listing permissions for user guest ..."; "/";
      "staging" +:+ TAB +:+ ".*" +:+ TAB +:+ "" +:+ TAB +:+ ".*"; "...done" ].
Proof. reflexivity. Qed.

Example splitlines_blank_lines :
  splitlines ("a" +:+ LF +:+ LF +:+ "b") = ["a"; ""; "b"]
  /\ splitlines LF = [""] /\ splitlines "" = [] /\ splitlines (CR +:+ "b") = [""; "b"].
Proof. repeat split; reflexivity. Qed.

Example safe_output_demo :
  map _safe_output
    [ "Listing permissions for user guest ..."; "/"; "...done"; "WARNING: ignored";
      "Listing"; "" ]
  = [false; true; false; false; true; true].
Proof. reflexivity. Qed.

Example output_to_dict_demo :
  _output_to_dict demo_listing None
  = {[ "/" := CStr ""; "staging" := CList [".*"; ""; ".*"] ]}.
Proof. vm_compute. reflexivity. Qed.

(** C4: response normalisation is a four-way case split on the shape of the
    response: a dict with nonzero retcode raises, a dict with zero retcode is
    wrapped under its own stdout, a text containing "Error" raises, and any
    other text is wrapped under the caller's status label. *)
Theorem format_response_cases (resp : response) (msg : string) :
  match resp with
  | RespDict retcode stdout =>
      if decide (retcode = 0)
      then _format_response resp msg = Ok {[ stdout := resp ]}
      else _format_response resp msg = Raise (CommandExecutionError resp)
  | RespText text =>
      if str_in "Error" text
      then _format_response resp msg = Raise (CommandExecutionError resp)
      else _format_response resp msg = Ok {[ msg := resp ]}
  end.
Proof.
  destruct resp as [text | retcode stdout]; unfold _format_response.
  - destruct (str_in "Error" text); reflexivity.
  - destruct (decide (retcode = 0)) as [-> | Hne]; [reflexivity |].
    destruct (Z.eqb_spec retcode 0) as [Heq | _]; [contradiction | reflexivity].
Qed.

(** *** The state functions, step by step *)

Lemma state_check_log g k d log :
  exists ev, snd (state_check g k d log) = log ++ [ev]
             /\ is_listing ev = true /\ ev_host ev = Some (AStr "localhost").
Proof.
  destruct g, k; simpl; unfold_states; unfold_run;
    (eexists (CmdEvent _ _); split;
       [ repeat split_match; reflexivity | split; reflexivity ]).
Qed.

(** Every state function is its existence check followed, when the entity is
    not where the goal wants it and this is no dry run, by exactly one client
    call whose normalised result decides the record. *)
Lemma state_run_spec g k d log :
  exists ev0,
    snd (state_check g k d log) = log ++ [ev0]
    /\ is_listing ev0 = true
    /\ ev_host ev0 = Some (AStr "localhost")
    /\ match fst (state_check g k d log) with
       | Raise e => state_run g k d log = (Raise e, log ++ [ev0])
       | Ok found =>
           if converged g found then
             state_run g k d log = (Ok (noop_ret g k d), log ++ [ev0])
           else if opts_test then
             state_run g k d log = (Ok (pending_ret g k d), log ++ [ev0])
           else
             exists ev1,
               action_is (mutation_of g) ev1 = true
               /\ ev_host ev1 = Some (AStr "localhost")
               /\ state_run g k d log =
                    (match shell (ev_argv ev1) (ev_runas ev1) (log ++ [ev0]) with
                     | Raise e => Raise e
                     | Ok resp =>
                         match _format_response resp (status_label g) with
                         | Raise e => Raise e
                         | Ok result => Ok (applied_ret g d result)
                         end
                     end, log ++ [ev0; ev1])
       end.
Proof.
  destruct g, k; simpl; unfold_states; unfold applied_ret, noop_ret, pending_ret;
    unfold_run;
    (eexists (CmdEvent _ _); split; [ | split; [ | split ] ];
     [ repeat split_match; reflexivity | reflexivity | reflexivity | ]);
    simpl; repeat run_step.
Qed.

Lemma listing_not_mutating ev : is_listing ev = true -> is_mutating ev = false.
Proof.
  unfold is_mutating, is_listing, is_declare, is_delete, action_is.
  destruct (ev_action ev) as [a |]; [| discriminate].
  intros Ha. apply String.eqb_eq in Ha. subst a. reflexivity.
Qed.

Lemma listing_not_declare ev : is_listing ev = true -> is_declare ev = false.
Proof.
  intros Hl. apply listing_not_mutating in Hl.
  unfold is_mutating in Hl. apply orb_false_iff in Hl. tauto.
Qed.

Lemma listing_not_delete ev : is_listing ev = true -> is_delete ev = false.
Proof.
  intros Hl. apply listing_not_mutating in Hl.
  unfold is_mutating in Hl. apply orb_false_iff in Hl. tauto.
Qed.

Lemma mutation_is_mutating g ev :
  action_is (mutation_of g) ev = true ->
  is_mutating ev = true
  /\ is_listing ev = false
  /\ match g with
     | Present => is_declare ev = true /\ is_delete ev = false
     | Absent => is_delete ev = true /\ is_declare ev = false
     end.
Proof.
  unfold is_mutating, is_listing, is_declare, is_delete, action_is.
  destruct (ev_action ev) as [a |]; [| discriminate].
  intros Ha. apply String.eqb_eq in Ha. subst a. destruct g; auto.
Qed.

Lemma changes_of_nonempty g d : changes_of g d <> ∅.
Proof.
  intros Heq. assert (Hl : changes_of g d !! "old" = None) by (rewrite Heq; apply lookup_empty).
  destruct g; simpl in Hl.
  - rewrite lookup_insert_eq in Hl. discriminate.
  - rewrite lookup_insert_ne in Hl by discriminate.
    rewrite lookup_singleton_eq in Hl. discriminate.
Qed.

(** C1: for every entity kind, when the existence check reports that the
    entity exists, [present] returns [result=True], [changes={}] and the
    "already exists" comment, and the only command issued is the listing of
    the check: no mutating client call is made. *)
Theorem present_is_idempotent (k : kind) (d : descriptor) (log log' : list cmd_event) :
  state_check Present k d log = (Ok true, log') ->
  state_run Present k d log =
    (Ok (StateRet (d_name d) (Some true) (already_exists_comment k d) ∅), log')
  /\ exists ev, log' = log ++ [ev] /\ is_listing ev = true /\ is_mutating ev = false.
Proof.
  intros Hcheck.
  destruct (state_run_spec Present k d log) as (ev0 & Hlog & Hlist & _ & Hrun).
  rewrite Hcheck in Hlog, Hrun. simpl in Hlog, Hrun. subst log'.
  split; [exact Hrun |].
  exists ev0. auto using listing_not_mutating.
Qed.

(** C2: for every entity kind, when the existence check reports that the
    entity does not exist, [absent] returns [result=True], [changes={}] and
    the "already not exists" (for a binding: "not exists") comment, and the
    only command issued is the listing of the check. *)
Theorem absent_is_idempotent (k : kind) (d : descriptor) (log log' : list cmd_event) :
  state_check Absent k d log = (Ok false, log') ->
  state_run Absent k d log =
    (Ok (StateRet (d_name d) (Some true) (not_exists_comment k d) ∅), log')
  /\ exists ev, log' = log ++ [ev] /\ is_listing ev = true /\ is_mutating ev = false.
Proof.
  intros Hcheck.
  destruct (state_run_spec Absent k d log) as (ev0 & Hlog & Hlist & _ & Hrun).
  rewrite Hcheck in Hlog, Hrun. simpl in Hlog, Hrun. subst log'.
  split; [exact Hrun |].
  exists ev0. auto using listing_not_mutating.
Qed.

(** C3: in dry-run mode every present/absent invocation issues the listing of
    its existence check and nothing else; when the check raises, so does the
    state; otherwise it returns [result=None] with the non-empty change
    record [{old, new}] when a change would occur, and [result=True] with
    [changes={}] when none would. *)
Theorem dry_run_only_checks (g : goal) (k : kind) (d : descriptor) (log : list cmd_event) :
  opts_test = true ->
  exists ev,
    snd (state_run g k d log) = log ++ [ev]
    /\ is_listing ev = true
    /\ is_mutating ev = false
    /\ match fst (state_check g k d log) with
       | Raise e => fst (state_run g k d log) = Raise e
       | Ok found =>
           exists ret,
             fst (state_run g k d log) = Ok ret
             /\ if converged g found
                then ret_result ret = Some true /\ ret_changes ret = ∅
                else ret_result ret = None
                     /\ ret_changes ret = changes_of g d
                     /\ ret_changes ret <> ∅
       end.
Proof.
  intros Htest.
  destruct (state_run_spec g k d log) as (ev0 & Hlog & Hlist & _ & Hrun).
  exists ev0.
  destruct (fst (state_check g k d log)) as [found | e].
  - rewrite Htest in Hrun.
    destruct (converged g found); rewrite Hrun; simpl;
      (split; [reflexivity | split; [exact Hlist | split; [auto using listing_not_mutating |]]]).
    + exists (noop_ret g k d). auto.
    + exists (pending_ret g k d). simpl. auto using changes_of_nonempty.
  - rewrite Hrun. simpl. auto using listing_not_mutating.
Qed.

(** C8: a present/absent invocation issues its listing and at most one
    mutating command: none when the check raises, when the entity is already
    where the goal wants it, or in a dry run, and exactly one otherwise;
    [present] never issues a delete, [absent] never a declare, and no other
    kind of command is issued. *)
Theorem at_most_one_mutation (g : goal) (k : kind) (d : descriptor) (log : list cmd_event) :
  exists evs,
    snd (state_run g k d log) = log ++ evs
    /\ (length (List.filter is_mutating evs) <= 1)%nat
    /\ List.filter (match g with Present => is_delete | Absent => is_declare end) evs = []
    /\ forallb (fun ev => is_listing ev || action_is (mutation_of g) ev) evs = true
    /\ length (List.filter is_mutating evs) =
       match fst (state_check g k d log) with
       | Raise _ => 0%nat
       | Ok found => if converged g found || opts_test then 0%nat else 1%nat
       end.
Proof.
  destruct (state_run_spec g k d log) as (ev0 & Hlog & Hlist & _ & Hrun).
  pose proof (listing_not_mutating _ Hlist) as Hmut0.
  pose proof (listing_not_declare _ Hlist) as Hdec0.
  pose proof (listing_not_delete _ Hlist) as Hdel0.
  assert (Hquiet : forall out,
    state_run g k d log = (out, log ++ [ev0]) ->
    snd (state_run g k d log) = log ++ [ev0]
    /\ (length (List.filter is_mutating [ev0]) <= 1)%nat
    /\ List.filter (match g with Present => is_delete | Absent => is_declare end) [ev0] = []
    /\ forallb (fun ev => is_listing ev || action_is (mutation_of g) ev) [ev0] = true
    /\ length (List.filter is_mutating [ev0]) = 0%nat).
  { intros out ->. simpl. rewrite Hmut0, Hlist. simpl.
    destruct g; rewrite ?Hdel0, ?Hdec0; auto. }
  destruct (fst (state_check g k d log)) as [found | e].
  - destruct (converged g found); simpl.
    { exists [ev0]. eapply Hquiet, Hrun. }
    destruct opts_test.
    { exists [ev0]. eapply Hquiet, Hrun. }
    destruct Hrun as (ev1 & Hact & _ & Hrun).
    destruct (mutation_is_mutating g ev1 Hact) as (Hmut1 & _ & Hkind).
    exists [ev0; ev1]. rewrite Hrun. simpl.
    rewrite Hmut0, Hmut1, Hlist, Hact. simpl.
    destruct g; destruct Hkind as [Hyes Hno];
      rewrite ?Hdel0, ?Hdec0, ?Hno; simpl; rewrite ?orb_true_r; auto.
  - exists [ev0]. eapply Hquiet, Hrun.
Qed.

(** C10: every command a present/absent invocation issues (its existence
    check and its add or delete) carries the host ["localhost"]: the
    descriptor read by the state layer has no host field, whereas each of the
    ten client functions forwards whatever host it is called with. *)
Theorem state_layer_host_is_localhost (g : goal) (k : kind) (d : descriptor)
    (log : list cmd_event) :
  (exists evs,
     snd (state_run g k d log) = log ++ evs
     /\ evs <> []
     /\ Forall (fun ev => ev_host ev = Some (AStr "localhost")) evs)
  /\ forall host pk runas,
       Forall (fun after => exists ev, after = log ++ [ev] /\ ev_host ev = Some (AStr host))
         [ snd (exchange_exists (d_name d) host (d_port d) (d_user d) (d_passwd d)
                  (d_vhost d) runas log);
           snd (queue_exists (d_name d) host (d_port d) (d_user d) (d_passwd d)
                  (d_vhost d) runas log);
           snd (binding_exists (d_name d) (d_destination d) (d_destination_type d)
                  (d_routing_key d) host (d_port d) (d_user d) (d_passwd d)
                  (d_vhost d) runas log);
           snd (binding_exists_with_props (d_name d) (d_destination d)
                  (d_destination_type d) (d_routing_key d) host (d_port d)
                  (d_user d) (d_passwd d) (d_vhost d) runas log);
           snd (add_exchange (d_name d) host (d_port d) (d_user d) (d_passwd d)
                  (d_vhost d) (d_type d) (d_durable d) (d_internal d)
                  (d_auto_delete d) (d_arguments d) runas log);
           snd (add_queue (d_name d) host (d_port d) (d_user d) (d_passwd d)
                  (d_vhost d) (d_durable d) (d_auto_delete d) (d_arguments d) runas log);
           snd (add_binding (d_name d) (d_destination d) (d_destination_type d)
                  (d_routing_key d) host (d_port d) (d_user d) (d_passwd d)
                  (d_vhost d) (d_arguments d) runas log);
           snd (delete_exchange (d_name d) host (d_port d) (d_user d) (d_passwd d)
                  (d_vhost d) runas log);
           snd (delete_queue (d_name d) host (d_port d) (d_user d) (d_passwd d)
                  (d_vhost d) runas log);
           snd (delete_binding (d_name d) (d_destination d) (d_destination_type d)
                  pk host (d_port d) (d_user d) (d_passwd d) (d_vhost d) runas log) ].
Proof.
  split.
  - destruct (state_run_spec g k d log) as (ev0 & Hlog & _ & Hhost0 & Hrun).
    destruct (fst (state_check g k d log)) as [found | e].
    + destruct (converged g found).
      { exists [ev0]. rewrite Hrun. simpl. repeat split; [discriminate | auto]. }
      destruct opts_test.
      { exists [ev0]. rewrite Hrun. simpl. repeat split; [discriminate | auto]. }
      destruct Hrun as (ev1 & _ & Hhost1 & Hrun).
      exists [ev0; ev1]. rewrite Hrun. simpl. repeat split; [discriminate | auto].
    + exists [ev0]. rewrite Hrun. simpl. repeat split; [discriminate | auto].
  - intros host pk runas.
    repeat (apply Forall_cons_2); [ .. | apply Forall_nil_2 ];
      unfold_states; unfold_run;
      (eexists (CmdEvent _ _); split; [ repeat split_match; reflexivity | reflexivity ]).
Qed.

(** *** Binding lookups *)

Lemma eq_str_true v s : eq_str v s = true <-> v = JStr s.
Proof.
  destruct v; simpl; try (split; [discriminate | intros [=]]).
  rewrite bool_decide_eq_true. split; [intros -> | intros [=]]; auto.
Qed.

Lemma field_is_spec item key value v :
  getitem item key = Ok v ->
  field_is item key value = Ok (eq_str v value).
Proof. intros Hv. unfold field_is. rewrite Hv. reflexivity. Qed.

Lemma binding_matches_spec name destination destination_type routing_key vhost item :
  binding_record item ->
  exists hit,
    binding_matches item name destination destination_type routing_key vhost = Ok hit
    /\ (hit = true <-> same_binding name destination destination_type routing_key vhost item).
Proof.
  intros Hrec.
  destruct (Hrec "source") as [v1 H1]; [simpl; tauto |].
  destruct (Hrec "destination") as [v2 H2]; [simpl; tauto |].
  destruct (Hrec "destination_type") as [v3 H3]; [simpl; tauto |].
  destruct (Hrec "routing_key") as [v4 H4]; [simpl; tauto |].
  destruct (Hrec "vhost") as [v5 H5]; [simpl; tauto |].
  unfold binding_matches, same_binding, and_then.
  rewrite (field_is_spec _ _ _ _ H1), (field_is_spec _ _ _ _ H2),
    (field_is_spec _ _ _ _ H3), (field_is_spec _ _ _ _ H4), (field_is_spec _ _ _ _ H5).
  rewrite H1, H2, H3, H4, H5. simpl.
  destruct (eq_str v1 name) eqn:E1;
    [apply eq_str_true in E1; subst v1 | exists false; split; [reflexivity |]].
  2: { split; [discriminate |]. intros ([= ->] & _).
       simpl in E1. rewrite bool_decide_eq_false in E1. contradiction. }
  destruct (eq_str v2 destination) eqn:E2;
    [apply eq_str_true in E2; subst v2 | exists false; split; [reflexivity |]].
  2: { split; [discriminate |]. intros (_ & [= ->] & _).
       simpl in E2. rewrite bool_decide_eq_false in E2. contradiction. }
  destruct (eq_str v3 destination_type) eqn:E3;
    [apply eq_str_true in E3; subst v3 | exists false; split; [reflexivity |]].
  2: { split; [discriminate |]. intros (_ & _ & [= ->] & _).
       simpl in E3. rewrite bool_decide_eq_false in E3. contradiction. }
  destruct (eq_str v4 routing_key) eqn:E4;
    [apply eq_str_true in E4; subst v4 | exists false; split; [reflexivity |]].
  2: { split; [discriminate |]. intros (_ & _ & _ & [= ->] & _).
       simpl in E4. rewrite bool_decide_eq_false in E4. contradiction. }
  exists (eq_str v5 vhost). split; [reflexivity |].
  rewrite eq_str_true. split.
  - intros ->. tauto.
  - intros (_ & _ & _ & _ & [= ->]). reflexivity.
Qed.

Lemma binding_listed_spec name destination destination_type routing_key vhost items :
  Forall binding_record items ->
  exists found,
    binding_listed name destination destination_type routing_key vhost items = Ok found
    /\ (found = true <->
        Exists (same_binding name destination destination_type routing_key vhost) items).
Proof.
  induction 1 as [| item items Hrec _ IH]; simpl.
  - exists false. split; [reflexivity |]. split; [discriminate | intros Hex; inversion Hex].
  - destruct (binding_matches_spec name destination destination_type routing_key vhost
                item Hrec) as (hit & -> & Hhit).
    simpl. destruct hit.
    + exists true. split; [reflexivity |]. split; [| reflexivity].
      intros _. apply Exists_cons_hd. apply Hhit. reflexivity.
    + destruct IH as (found & -> & Hfound). exists found. split; [reflexivity |].
      rewrite Hfound. split.
      * apply Exists_cons_tl.
      * intros Hex. inversion Hex as [? ? Hhd | ? ? Htl]; subst; [| exact Htl].
        apply Hhit in Hhd. discriminate.
Qed.

Lemma binding_props_spec name destination destination_type routing_key vhost items :
  Forall binding_record items ->
  exists properties_key,
    binding_props name destination destination_type routing_key vhost items
    = Ok properties_key
    /\ ((exists item,
           In item items
           /\ same_binding name destination destination_type routing_key vhost item
           /\ getitem item "properties_key" = Ok properties_key)
        \/ (Forall (fun item =>
              ~ same_binding name destination destination_type routing_key vhost item) items
            /\ properties_key = JNull)).
Proof.
  induction 1 as [| item items Hrec _ IH]; simpl.
  - exists JNull. split; [reflexivity |]. right. split; [constructor | reflexivity].
  - destruct (binding_matches_spec name destination destination_type routing_key vhost
                item Hrec) as (hit & -> & Hhit).
    simpl. destruct hit.
    + destruct (Hrec "properties_key") as [pk Hpk]; [simpl; tauto |].
      exists pk. split; [exact Hpk |]. left. exists item.
      split; [left; reflexivity |]. split; [apply Hhit; reflexivity | exact Hpk].
    + destruct IH as (pk & -> & [(other & Hin & Hsame & Hpk) | (Hnone & ->)]).
      * exists pk. split; [reflexivity |]. left. exists other.
        split; [right; exact Hin | auto].
      * exists JNull. split; [reflexivity |]. right. split; [| reflexivity].
        constructor; [| exact Hnone]. intros Hsame. apply Hhit in Hsame. discriminate.
Qed.

(** C6: on a listing of binding records, [binding_exists] returns [True]
    exactly when some record agrees with the call on source, destination,
    destination_type, routing_key and vhost (no other field is consulted),
    and [binding_exists_with_props] returns the [properties_key] of such a
    record, or [None] when no record agrees. *)
Theorem binding_identity_is_five_fields
    (name destination destination_type routing_key host : string) (port : Z)
    (user passwd vhost : string) (runas : option string)
    (log : list cmd_event) (out : string) (items : list json) :
  shell [AStr "rabbitmqadmin"; AStr "list"; AStr "bindings"; AStr "-H"; AStr host;
         AStr "-P"; AInt port; AStr "-u"; AStr user; AStr "-p"; AStr passwd;
         AStr "-V"; AStr vhost; AStr "--format=raw_json"]
        (runas_or_user runas) log = Ok (RespText out) ->
  json_loads out = Some (JArr items) ->
  Forall binding_record items ->
  (exists found,
     fst (binding_exists name destination destination_type routing_key host port
            user passwd vhost runas log) = Ok found
     /\ (found = true <->
         Exists (same_binding name destination destination_type routing_key vhost) items))
  /\ (exists properties_key,
        fst (binding_exists_with_props name destination destination_type routing_key
               host port user passwd vhost runas log) = Ok properties_key
        /\ ((exists item,
               In item items
               /\ same_binding name destination destination_type routing_key vhost item
               /\ getitem item "properties_key" = Ok properties_key)
            \/ (Forall (fun item =>
                  ~ same_binding name destination destination_type routing_key vhost item)
                  items
                /\ properties_key = JNull))).
Proof.
  intros Hshell Hloads Hrecs.
  unfold binding_exists, binding_exists_with_props. unfold_run.
  rewrite Hshell. simpl. rewrite Hloads. simpl. split.
  - apply binding_listed_spec, Hrecs.
  - apply binding_props_spec, Hrecs.
Qed.

(** Two records that agree on the five identity fields are matched alike,
    whatever their [arguments] and [properties_key]. *)
Lemma binding_matches_ignores_other_fields
    name destination destination_type routing_key vhost item item' :
  (forall key,
     In key ["source"; "destination"; "destination_type"; "routing_key"; "vhost"] ->
     getitem item key = getitem item' key) ->
  binding_matches item name destination destination_type routing_key vhost
  = binding_matches item' name destination destination_type routing_key vhost.
Proof.
  intros Hsame. unfold binding_matches, field_is.
  rewrite !Hsame by (simpl; tauto). reflexivity.
Qed.

Lemma same_binding_matches name destination destination_type routing_key vhost item :
  same_binding name destination destination_type routing_key vhost item ->
  binding_matches item name destination destination_type routing_key vhost = Ok true.
Proof.
  intros (H1 & H2 & H3 & H4 & H5).
  unfold binding_matches, and_then, field_is.
  rewrite H1, H2, H3, H4, H5. simpl.
  rewrite !bool_decide_eq_true_2 by reflexivity. reflexivity.
Qed.

Lemma other_binding_matches name destination destination_type routing_key vhost item :
  binding_record item ->
  ~ same_binding name destination destination_type routing_key vhost item ->
  binding_matches item name destination destination_type routing_key vhost = Ok false.
Proof.
  intros Hrec Hother.
  destruct (binding_matches_spec name destination destination_type routing_key vhost
              item Hrec) as ([|] & Hm & Hhit); [| exact Hm].
  exfalso. apply Hother, Hhit. reflexivity.
Qed.

Lemma binding_props_first name destination destination_type routing_key vhost
    before item after :
  Forall (fun other =>
    binding_record other
    /\ ~ same_binding name destination destination_type routing_key vhost other) before ->
  same_binding name destination destination_type routing_key vhost item ->
  binding_props name destination destination_type routing_key vhost
    (before ++ item :: after)
  = getitem item "properties_key".
Proof.
  intros Hbefore Hsame. induction Hbefore as [| other before [Hrec Hother] _ IH]; simpl.
  - rewrite (same_binding_matches _ _ _ _ _ _ Hsame). reflexivity.
  - rewrite (other_binding_matches _ _ _ _ _ _ Hrec Hother). simpl. exact IH.
Qed.

Lemma binding_listed_first name destination destination_type routing_key vhost
    before item after :
  Forall (fun other =>
    binding_record other
    /\ ~ same_binding name destination destination_type routing_key vhost other) before ->
  same_binding name destination destination_type routing_key vhost item ->
  binding_listed name destination destination_type routing_key vhost
    (before ++ item :: after)
  = Ok true.
Proof.
  intros Hbefore Hsame. induction Hbefore as [| other before [Hrec Hother] _ IH]; simpl.
  - rewrite (same_binding_matches _ _ _ _ _ _ Hsame). reflexivity.
  - rewrite (other_binding_matches _ _ _ _ _ _ Hrec Hother). simpl. exact IH.
Qed.

(** C9: when the first listed record that matches the binding carries the
    empty text as its [properties_key], the binding [absent] state takes the
    falsy key for "no such binding": it returns [result=True], [changes={}]
    and the "not exists" comment after the listing alone, without a delete,
    although [binding_exists] reports the same binding as existing. *)
Theorem absent_binding_blank_key
    (name destination routing_key destination_type user passwd : string) (port : Z)
    (vhost : string) (log : list cmd_event) (out : string)
    (before : list json) (item : json) (after : list json) :
  shell [AStr "rabbitmqadmin"; AStr "list"; AStr "bindings"; AStr "-H"; AStr "localhost";
         AStr "-P"; AInt port; AStr "-u"; AStr user; AStr "-p"; AStr passwd;
         AStr "-V"; AStr vhost; AStr "--format=raw_json"]
        get_user log = Ok (RespText out) ->
  json_loads out = Some (JArr (before ++ item :: after)) ->
  Forall (fun other =>
    binding_record other
    /\ ~ same_binding name destination destination_type routing_key vhost other) before ->
  same_binding name destination destination_type routing_key vhost item ->
  getitem item "properties_key" = Ok (JStr "") ->
  exists ev,
    rabbitmq_binding.absent name destination routing_key destination_type
      user passwd port vhost log
    = (Ok (StateRet name (Some true)
             (RespText ("Binding '" +:+ name +:+ "' for vhost '" +:+ vhost
                        +:+ "' not exists.")) ∅),
       log ++ [ev])
    /\ is_listing ev = true
    /\ is_delete ev = false
    /\ fst (binding_exists name destination destination_type routing_key "localhost"
              port user passwd vhost None log) = Ok true.
Proof.
  intros Hshell Hloads Hbefore Hsame Hkey.
  eexists (CmdEvent _ _).
  unfold rabbitmq_binding.absent, binding_exists_with_props, binding_exists. unfold_run.
  simpl. rewrite Hshell. simpl. rewrite Hloads. simpl.
  rewrite (binding_props_first _ _ _ _ _ _ _ _ Hbefore Hsame), Hkey.
  rewrite (binding_listed_first _ _ _ _ _ _ _ _ Hbefore Hsame).
  simpl. repeat split; reflexivity.
Qed.

(** *** Tab-delimited listings *)

Lemma is_tab_spec c : is_tab c = true <-> c = ascii_of_nat 9.
Proof.
  unfold is_tab. rewrite Nat.eqb_eq. split.
  - intros Hc. rewrite <- Hc. symmetry. apply ascii_nat_embedding.
  - intros ->. reflexivity.
Qed.

Lemma prefix_TAB c rest : String.prefix TAB (String c rest) = is_tab c.
Proof.
  change (String.prefix TAB (String c rest))
    with (if ascii_dec (ascii_of_nat 9) c then String.prefix EmptyString rest else false).
  destruct (ascii_dec (ascii_of_nat 9) c) as [<- | Hne].
  - destruct rest; reflexivity.
  - destruct (is_tab c) eqn:Hc; [| reflexivity].
    apply is_tab_spec in Hc. congruence.
Qed.

Lemma split_tab_once_none row : str_in TAB row = false -> split_tab_once row = None.
Proof.
  induction row as [| c rest IH]; [reflexivity |].
  change (str_in TAB (String c rest))
    with (if String.prefix TAB (String c rest) then true else str_in TAB rest).
  rewrite prefix_TAB. simpl. destruct (is_tab c); [discriminate |].
  intros Hrest. rewrite (IH Hrest). reflexivity.
Qed.

Lemma output_row_key f ret row :
  exists value, _output_to_dict_row f ret row = <[ row_key row := value ]> ret.
Proof.
  unfold _output_to_dict_row, row_key.
  destruct (split_tab_once row) as [[key values] |]; eauto.
Qed.

(** Rows filed under other keys leave an entry as it is. *)
Lemma output_rows_keep f rows (ret : gmap string cell) key :
  Forall (fun r => row_key r <> key) rows ->
  fold_left (_output_to_dict_row f) rows ret !! key = ret !! key.
Proof.
  intros Hrows. revert ret.
  induction Hrows as [| r rows Hr _ IH]; intros ret; simpl; [reflexivity |].
  rewrite IH. destruct (output_row_key f ret r) as [value ->].
  apply lookup_insert_ne. exact Hr.
Qed.

(** C7: a data row without a tab is filed under the whole row with the empty
    text as its value: the row step inserts that entry; the parsed dict holds
    it unless a later row is filed under the same key; and an output whose
    only data row is this one parses to the one-entry dict, as ["/"] does to
    [{"/": ""}].  [_output_to_dict] is a total function: no row makes it
    raise. *)
Theorem bare_row_maps_to_blank (values_mapper : option (string -> cell)) (row : string) :
  str_in TAB row = false ->
  (forall f ret, _output_to_dict_row f ret row = <[ row := CStr "" ]> ret)
  /\ (forall cmdoutput before after,
        _strip_listing_to_done (splitlines cmdoutput) = before ++ row :: after ->
        Forall (fun later => row_key later <> row) after ->
        _output_to_dict cmdoutput values_mapper !! row = Some (CStr ""))
  /\ (forall cmdoutput,
        _strip_listing_to_done (splitlines cmdoutput) = [row] ->
        _output_to_dict cmdoutput values_mapper = {[ row := CStr "" ]}).
Proof.
  intros Hrow. pose proof (split_tab_once_none row Hrow) as Hsplit.
  assert (Hstep : forall f ret, _output_to_dict_row f ret row = <[ row := CStr "" ]> ret).
  { intros f ret. unfold _output_to_dict_row. rewrite Hsplit. reflexivity. }
  split; [exact Hstep | split].
  - intros cmdoutput before after Hrows Hlater.
    unfold _output_to_dict. rewrite Hrows, fold_left_app. simpl.
    rewrite output_rows_keep by exact Hlater.
    rewrite Hstep. apply lookup_insert_eq.
  - intros cmdoutput Hrows.
    unfold _output_to_dict. rewrite Hrows. simpl. rewrite Hstep. reflexivity.
Qed.

(** *** What a mutating call makes of the record *)


Lemma status_label_not_Error g : status_label g <> "Error".
Proof. destruct g; discriminate. Qed.


(** A text response with the marker "Error" to the add or delete command
    makes the state function raise. *)
Lemma mutation_error_raises g k d log found log1 text :
  opts_test = false ->
  state_check g k d log = (Ok found, log1) ->
  converged g found = false ->
  (forall argv runas,
     action_is (mutation_of g) (CmdEvent argv runas) = true ->
     shell argv runas log1 = Ok (RespText text)) ->
  str_in "Error" text = true ->
  fst (state_run g k d log) = Raise (CommandExecutionError (RespText text)).
Proof.
  intros Htest Hcheck Hconv Hshell Herr.
  destruct (state_run_spec g k d log) as (ev0 & Hlog & _ & _ & Hrun).
  rewrite Hcheck in Hlog, Hrun. simpl in Hlog, Hrun. subst log1.
  rewrite Hconv, Htest in Hrun. destruct Hrun as ([argv runas] & Hact & _ & ->).
  simpl. rewrite (Hshell _ _ Hact). simpl. rewrite Herr. reflexivity.
Qed.

(** X18: a text response without the marker makes the state function report the
    change: [result=True], the response as the comment and the change record
    of the goal. *)
Lemma mutation_success_reports_change g k d log found log1 text :
  opts_test = false ->
  state_check g k d log = (Ok found, log1) ->
  converged g found = false ->
  (forall argv runas,
     action_is (mutation_of g) (CmdEvent argv runas) = true ->
     shell argv runas log1 = Ok (RespText text)) ->
  str_in "Error" text = false ->
  fst (state_run g k d log) =
    Ok (StateRet (d_name d) (Some true) (RespText text) (changes_of g d)).
Proof.
  intros Htest Hcheck Hconv Hshell Herr.
  destruct (state_run_spec g k d log) as (ev0 & Hlog & _ & _ & Hrun).
  rewrite Hcheck in Hlog, Hrun. simpl in Hlog, Hrun. subst log1.
  rewrite Hconv, Htest in Hrun. destruct Hrun as ([argv runas] & Hact & _ & ->).
  simpl. rewrite (Hshell _ _ Hact). simpl. rewrite Herr.
  unfold applied_ret.
  rewrite lookup_singleton_ne by apply status_label_not_Error.
  rewrite lookup_singleton_eq. reflexivity.
Qed.

End Proofs.

(** ** The theorems at work on the broker stand-in *)

Lemma present_is_idempotent_witness :
  let S := demo_salt "[orders]" (RespText "done") false in
  let log' := snd (@state_check S Present Exchange demo_descriptor []) in
  @state_check S Present Exchange demo_descriptor [] = (Ok true, log')
  /\ fst (@state_run S Present Exchange demo_descriptor [])
     = Ok (StateRet "orders" (Some true)
             (RespText "Exchange 'orders' for vhost '/' already exists.") ∅).
Proof.
  intros S log'.
  assert (Hcheck : @state_check S Present Exchange demo_descriptor [] = (Ok true, log'))
    by (vm_compute; reflexivity).
  split; [exact Hcheck |].
  exact (f_equal fst
           (proj1 (@present_is_idempotent S Exchange demo_descriptor [] log' Hcheck))).
Defined.

Lemma absent_is_idempotent_witness :
  let S := demo_salt "[]" (RespText "done") false in
  let log' := snd (@state_check S Absent Queue demo_descriptor []) in
  @state_check S Absent Queue demo_descriptor [] = (Ok false, log')
  /\ fst (@state_run S Absent Queue demo_descriptor [])
     = Ok (StateRet "orders" (Some true)
             (RespText "Queue 'orders' for vhost '/' already not exists.") ∅).
Proof.
  intros S log'.
  assert (Hcheck : @state_check S Absent Queue demo_descriptor [] = (Ok false, log'))
    by (vm_compute; reflexivity).
  split; [exact Hcheck |].
  exact (f_equal fst
           (proj1 (@absent_is_idempotent S Queue demo_descriptor [] log' Hcheck))).
Defined.

Lemma dry_run_only_checks_witness :
  let S := demo_salt "[]" (RespText "done") true in
  @opts_test S = true
  /\ exists ev,
       snd (@state_run S Present Binding demo_descriptor []) = [] ++ [ev]
       /\ is_listing ev = true
       /\ is_mutating ev = false
       /\ match fst (@state_check S Present Binding demo_descriptor []) with
          | Raise e => fst (@state_run S Present Binding demo_descriptor []) = Raise e
          | Ok found =>
              exists ret,
                fst (@state_run S Present Binding demo_descriptor []) = Ok ret
                /\ if converged Present found
                   then ret_result ret = Some true /\ ret_changes ret = ∅
                   else ret_result ret = None
                        /\ ret_changes ret = changes_of Present demo_descriptor
                        /\ ret_changes ret <> ∅
          end.
Proof.
  intros S. split; [reflexivity |].
  exact (@dry_run_only_checks S Present Binding demo_descriptor [] eq_refl).
Defined.

Lemma orders_binding_is_record key : binding_record (orders_binding key).
Proof.
  intros field Hin. simpl in Hin.
  repeat (destruct Hin as [<- | Hin]; [eexists; reflexivity |]).
  destruct Hin.
Qed.

Lemma binding_identity_is_five_fields_witness :
  let S := demo_salt "[orders->invoices]" (RespText "done") false in
  @shell S
    [AStr "rabbitmqadmin"; AStr "list"; AStr "bindings"; AStr "-H"; AStr "localhost";
     AStr "-P"; AInt 15672; AStr "-u"; AStr "guest"; AStr "-p"; AStr "guest";
     AStr "-V"; AStr "/"; AStr "--format=raw_json"]
    (@runas_or_user S None) [] = Ok (RespText "[orders->invoices]")
  /\ @json_loads S "[orders->invoices]" = Some (JArr [orders_binding "eu"])
  /\ Forall binding_record [orders_binding "eu"]
  /\ (exists found,
        fst (@rabbitmq_extended.binding_exists S "orders" "invoices" "queue" "eu"
               "localhost" 15672 "guest" "guest" "/" None []) = Ok found
        /\ (found = true <->
            Exists (same_binding "orders" "invoices" "queue" "eu" "/")
              [orders_binding "eu"])).
Proof.
  intros S.
  assert (Hrecs : Forall binding_record [orders_binding "eu"])
    by (constructor; [apply orders_binding_is_record | constructor]).
  repeat split; try reflexivity; try exact Hrecs.
  exact (proj1 (@binding_identity_is_five_fields S "orders" "invoices" "queue" "eu"
                  "localhost" 15672 "guest" "guest" "/" None [] "[orders->invoices]"
                  [orders_binding "eu"] eq_refl eq_refl Hrecs)).
Defined.

Lemma bare_row_maps_to_blank_witness :
  str_in TAB "/" = false
  /\ rabbitmq_extended._output_to_dict "/" None = {[ "/" := rabbitmq_extended.CStr "" ]}.
Proof.
  split; [reflexivity |].
  exact (proj2 (proj2 (bare_row_maps_to_blank None "/" eq_refl)) "/" eq_refl).
Defined.

Lemma absent_binding_blank_key_witness :
  let S := demo_salt "[orders->invoices, blank key]" (RespText "done") false in
  @shell S
    [AStr "rabbitmqadmin"; AStr "list"; AStr "bindings"; AStr "-H"; AStr "localhost";
     AStr "-P"; AInt 15672; AStr "-u"; AStr "guest"; AStr "-p"; AStr "guest";
     AStr "-V"; AStr "/"; AStr "--format=raw_json"]
    (@get_user S) [] = Ok (RespText "[orders->invoices, blank key]")
  /\ @json_loads S "[orders->invoices, blank key]"
     = Some (JArr ([] ++ orders_binding "" :: []))
  /\ same_binding "orders" "invoices" "queue" "eu" "/" (orders_binding "")
  /\ getitem (orders_binding "") "properties_key" = Ok (JStr "")
  /\ exists ev,
       @rabbitmq_binding.absent S "orders" "invoices" "eu" "queue" "guest" "guest"
         15672 "/" []
       = (Ok (StateRet "orders" (Some true)
                (RespText "Binding 'orders' for vhost '/' not exists.") ∅),
          [] ++ [ev])
       /\ is_listing ev = true
       /\ is_delete ev = false
       /\ fst (@rabbitmq_extended.binding_exists S "orders" "invoices" "queue" "eu"
                 "localhost" 15672 "guest" "guest" "/" None []) = Ok true.
Proof.
  intros S.
  assert (Hsame : same_binding "orders" "invoices" "queue" "eu" "/" (orders_binding ""))
    by (repeat split; reflexivity).
  split; [reflexivity |]. split; [reflexivity |]. split; [exact Hsame |].
  split; [reflexivity |].
  exact (@absent_binding_blank_key S "orders" "invoices" "eu" "queue" "guest" "guest"
           15672 "/" [] "[orders->invoices, blank key]" [] (orders_binding "") []
           eq_refl eq_refl (List.Forall_nil _) Hsame eq_refl).
Defined.

(** C5: the admin CLI answers the declare command of [present] with a text
    that carries the marker "Error"; the client raises on it, so the state
    function raises too instead of returning a record with [result=False]
    and the text as its comment. *)
Theorem error_marker_raises_in_present :
  @rabbitmq_exchange.present (demo_salt "[]" (RespText "Error: access refused") false)
    "orders" "guest" "guest" "fanout" false false false 15672 "/" [] []
  = (Raise (CommandExecutionError (RespText "Error: access refused")),
     [ CmdEvent
         [AStr "rabbitmqadmin"; AStr "list"; AStr "exchanges"; AStr "-H"; AStr "localhost";
          AStr "-P"; AInt 15672; AStr "-u"; AStr "guest"; AStr "-p"; AStr "guest";
          AStr "-V"; AStr "/"; AStr "--format=raw_json"] "root";
       CmdEvent
         [AStr "rabbitmqadmin"; AStr "declare"; AStr "exchange"; AStr "-H";
          AStr "localhost"; AStr "-P"; AInt 15672; AStr "-u"; AStr "guest"; AStr "-p";
          AStr "guest"; AStr "-V"; AStr "/"; AStr "name=orders"; AStr "type=fanout";
          AStr "durable=false"; AStr "internal=false"; AStr "auto_delete=false";
          AStr "arguments={}"] "root" ]).
Proof. vm_compute. reflexivity. Qed.

(** ** Further properties of the client and state modules *)

(** Rewrite the shell call of the goal with a known answer. *)
Ltac answer_with Hans :=
  match goal with
  | |- context [shell ?a ?u ?l] => rewrite (Hans a u eq_refl)
  end.

Section Coverage.
Context `{Salt}.

(** *** Existence checks of exchanges and queues *)

Lemma name_listed_spec name items :
  Forall name_record items ->
  exists found,
    name_listed name items = Ok found
    /\ (found = true <-> Exists (named name) items).
Proof.
  induction 1 as [| item items [v Hv] _ IH]; simpl.
  - exists false. split; [reflexivity |]. split; [discriminate | intros Hex; inversion Hex].
  - rewrite Hv. simpl. destruct (eq_str v name) eqn:Hname.
    + exists true. split; [reflexivity |]. split; [| reflexivity].
      intros _. apply Exists_cons_hd. apply eq_str_true in Hname. subst v. exact Hv.
    + destruct IH as (found & -> & Hfound). exists found. split; [reflexivity |].
      rewrite Hfound. split; [apply Exists_cons_tl |].
      intros Hex. inversion Hex as [? ? Hhd | ? ? Htl]; subst; [| exact Htl].
      unfold named in Hhd. rewrite Hv in Hhd. injection Hhd as ->.
      simpl in Hname. rewrite bool_decide_eq_false in Hname. contradiction.
Qed.

Lemma name_listed_first name before item after :
  Forall (fun other => name_record other /\ ~ named name other) before ->
  name_listed name (before ++ item :: after)
  = match getitem item "name" with
    | Raise e => Raise e
    | Ok v => if eq_str v name then Ok true else name_listed name after
    end.
Proof.
  induction 1 as [| other before [[v Hv] Hother] _ IH]; simpl; [reflexivity |].
  rewrite Hv. simpl. destruct (eq_str v name) eqn:Hname; [| exact IH].
  apply eq_str_true in Hname. subst v. contradiction.
Qed.

(** X1: on a listing whose records all carry a name, [exchange_exists] and
    [queue_exists] return [True] exactly when some record is named [name];
    no other field of a record, its vhost included, is consulted. *)
Theorem exists_by_name_only (name host : string) (port : Z) (user passwd vhost : string)
    (runas : option string) (log : list cmd_event) (out : string) (items : list json) :
  listing_answer log (Ok (RespText out)) ->
  json_loads out = Some (JArr items) ->
  Forall name_record items ->
  exists found,
    fst (exchange_exists name host port user passwd vhost runas log) = Ok found
    /\ fst (queue_exists name host port user passwd vhost runas log) = Ok found
    /\ (found = true <-> Exists (named name) items).
Proof.
  intros Hans Hloads Hrecs.
  destruct (name_listed_spec name items Hrecs) as (found & Hfound & Hiff).
  exists found. unfold exchange_exists, queue_exists. unfold_run.
  repeat answer_with Hans. simpl. rewrite Hloads. simpl. rewrite Hfound. auto.
Qed.

(** X2: the scan stops at the first record that decides it: a record named
    [name] makes both checks return [True] whatever follows it, and a record
    that cannot be asked for its name makes both raise, when every record
    before it has another name. *)
Theorem first_record_decides (name host : string) (port : Z) (user passwd vhost : string)
    (runas : option string) (log : list cmd_event) (out : string)
    (before : list json) (item : json) (after : list json) :
  listing_answer log (Ok (RespText out)) ->
  json_loads out = Some (JArr (before ++ item :: after)) ->
  Forall (fun other => name_record other /\ ~ named name other) before ->
  match getitem item "name" with
  | Raise e =>
      fst (exchange_exists name host port user passwd vhost runas log) = Raise e
      /\ fst (queue_exists name host port user passwd vhost runas log) = Raise e
  | Ok v =>
      if eq_str v name
      then fst (exchange_exists name host port user passwd vhost runas log) = Ok true
           /\ fst (queue_exists name host port user passwd vhost runas log) = Ok true
      else fst (exchange_exists name host port user passwd vhost runas log)
           = name_listed name after
  end.
Proof.
  intros Hans Hloads Hbefore.
  unfold exchange_exists, queue_exists. unfold_run.
  repeat answer_with Hans. simpl. rewrite Hloads. simpl.
  rewrite (name_listed_first name before item after Hbefore).
  destruct (getitem item "name") as [v | e]; [| auto].
  destruct (eq_str v name); [auto |].
  destruct (name_listed name after); reflexivity.
Qed.

(** X3: what the existence check of a state function makes of a listing it
    cannot walk: an exception of the shell passes through; a dict response
    and a decoded null, boolean or number raise [TypeError]; text that is
    not JSON raises [ValueError]; an empty array, object or text counts as
    "not found". *)
Theorem check_on_unusable_listing (g : goal) (k : kind) (d : descriptor)
    (log : list cmd_event) (r : outcome response) :
  listing_answer log r ->
  match r with
  | Raise e => fst (state_check g k d log) = Raise e
  | Ok (RespDict _ _) => fst (state_check g k d log) = Raise TypeError
  | Ok (RespText out) =>
      match json_loads out with
      | None => fst (state_check g k d log) = Raise ValueError
      | Some (JNull | JBool _ | JNum _) => fst (state_check g k d log) = Raise TypeError
      | Some (JArr [] | JObj [] | JStr EmptyString) =>
          fst (state_check g k d log) = Ok false
      | Some _ => True
      end
  end.
Proof.
  intros Hans.
  destruct g, k; simpl; unfold_states; unfold_run; answer_with Hans;
    (destruct r as [[out | rc stdout] | e]; simpl; [| reflexivity | reflexivity]);
    (destruct (json_loads out) as [[| b | n | [| c s] | [| item items] | [| kv o]] |];
     simpl; exact I || reflexivity).
Qed.

(** X4: an exception raised by the existence check leaves the state function
    through the same exception, after the listing command alone. *)
Theorem check_error_propagates (g : goal) (k : kind) (d : descriptor)
    (log : list cmd_event) (e : exn) :
  fst (state_check g k d log) = Raise e ->
  exists ev,
    state_run g k d log = (Raise e, log ++ [ev])
    /\ is_listing ev = true.
Proof.
  intros Hcheck.
  destruct (state_run_spec g k d log) as (ev0 & _ & Hlist & _ & Hrun).
  rewrite Hcheck in Hrun. exists ev0. auto.
Qed.

(** *** The two binding lookups *)

Lemma binding_matches_object item name destination destination_type routing_key vhost hit :
  binding_matches item name destination destination_type routing_key vhost = Ok hit ->
  exists o, item = JObj o.
Proof.
  destruct item; try discriminate. eauto.
Qed.

Lemma binding_scans_agree name destination destination_type routing_key vhost items :
  match binding_listed name destination destination_type routing_key vhost items with
  | Ok false =>
      binding_props name destination destination_type routing_key vhost items = Ok JNull
  | Ok true =>
      (exists properties_key,
         binding_props name destination destination_type routing_key vhost items
         = Ok properties_key)
      \/ binding_props name destination destination_type routing_key vhost items
         = Raise (KeyError "properties_key")
  | Raise e =>
      binding_props name destination destination_type routing_key vhost items = Raise e
  end.
Proof.
  induction items as [| item items IH]; simpl; [reflexivity |].
  destruct (binding_matches item name destination destination_type routing_key vhost)
    as [[|] | e] eqn:Hm; simpl; [| exact IH | reflexivity].
  destruct (binding_matches_object _ _ _ _ _ _ _ Hm) as [o ->]. simpl.
  destruct (assoc "properties_key" o); eauto.
Qed.

(** X5: the lookup of [present] and the lookup of [absent] agree on the same
    broker answer: where [binding_exists] returns [False] the other returns
    [None], where it raises the other raises the same exception, and where
    it returns [True] the other returns the matching record's key or raises
    [KeyError] for a record without one. *)
Theorem binding_lookups_agree
    (name destination destination_type routing_key host : string) (port : Z)
    (user passwd vhost : string) (runas : option string) (log : list cmd_event) :
  match fst (binding_exists name destination destination_type routing_key host port
               user passwd vhost runas log) with
  | Ok false =>
      fst (binding_exists_with_props name destination destination_type routing_key
             host port user passwd vhost runas log) = Ok JNull
  | Ok true =>
      (exists properties_key,
         fst (binding_exists_with_props name destination destination_type routing_key
                host port user passwd vhost runas log) = Ok properties_key)
      \/ fst (binding_exists_with_props name destination destination_type routing_key
                host port user passwd vhost runas log)
         = Raise (KeyError "properties_key")
  | Raise e =>
      fst (binding_exists_with_props name destination destination_type routing_key
             host port user passwd vhost runas log) = Raise e
  end.
Proof.
  unfold binding_exists, binding_exists_with_props. unfold_run.
  destruct (shell _ _ log) as [res | e]; simpl; [| reflexivity].
  destruct (loads res) as [v | e]; simpl; [| reflexivity].
  destruct (iterate v) as [items | e]; simpl; [| reflexivity].
  pose proof (binding_scans_agree name destination destination_type routing_key vhost
                items) as Hscan.
  destruct (binding_listed _ _ _ _ _ items) as [[|] | e];
    destruct (binding_props _ _ _ _ _ items); simpl; exact Hscan.
Qed.

(** X6: outside a dry run, [absent] deletes a listed binding by the
    [properties_key] of the first record that matches it: the invocation
    issues the listing and then one delete command that names the source,
    destination, destination type and that key. *)
Theorem absent_deletes_first_match
    (name destination routing_key destination_type user passwd : string) (port : Z)
    (vhost : string) (log : list cmd_event) (out : string)
    (before : list json) (item : json) (after : list json) (key : string) :
  opts_test = false ->
  listing_answer log (Ok (RespText out)) ->
  json_loads out = Some (JArr (before ++ item :: after)) ->
  Forall (fun other =>
    binding_record other
    /\ ~ same_binding name destination destination_type routing_key vhost other) before ->
  same_binding name destination destination_type routing_key vhost item ->
  getitem item "properties_key" = Ok (JStr key) ->
  key <> "" ->
  snd (rabbitmq_binding.absent name destination routing_key destination_type
         user passwd port vhost log)
  = log ++
    [ CmdEvent
        [AStr "rabbitmqadmin"; AStr "list"; AStr "bindings"; AStr "-H"; AStr "localhost";
         AStr "-P"; AInt port; AStr "-u"; AStr user; AStr "-p"; AStr passwd;
         AStr "-V"; AStr vhost; AStr "--format=raw_json"] get_user;
      CmdEvent
        [AStr "rabbitmqadmin"; AStr "delete"; AStr "binding";
         AStr ("source=" +:+ name); AStr ("destination=" +:+ destination);
         AStr ("destination_type=" +:+ destination_type);
         AStr ("properties_key=" +:+ key);
         AStr "-H"; AStr "localhost"; AStr "-P"; AInt port; AStr "-u"; AStr user;
         AStr "-p"; AStr passwd; AStr "-V"; AStr vhost; AStr "--format=table"] get_user ].
Proof.
  intros Htest Hans Hloads Hbefore Hsame Hkey Hne.
  unfold rabbitmq_binding.absent, binding_exists_with_props, delete_binding. unfold_run.
  simpl. answer_with Hans. simpl. rewrite Hloads. simpl.
  rewrite (binding_props_first _ _ _ _ _ _ _ _ Hbefore Hsame), Hkey. simpl.
  rewrite bool_decide_eq_false_2 by exact Hne. simpl. rewrite Htest. simpl.
  rewrite <- app_assoc. simpl.
  repeat split_match; reflexivity.
Qed.

(** *** The record a state function returns *)

(** X7: every record a state function returns carries the name it was called
    with; [result=None] occurs only in a dry run and comes with the change
    record of the goal; [result=False] occurs only outside a dry run and
    comes with no changes; [result=True] comes with no changes (a no-op) or,
    outside a dry run, with the change record of the goal. *)
Theorem state_ret_invariants (g : goal) (k : kind) (d : descriptor)
    (log : list cmd_event) (ret : state_ret) :
  fst (state_run g k d log) = Ok ret ->
  ret_name ret = d_name d
  /\ match ret_result ret with
     | None => opts_test = true /\ ret_changes ret = changes_of g d
     | Some false => opts_test = false /\ ret_changes ret = ∅
     | Some true =>
         ret_changes ret = ∅
         \/ (opts_test = false /\ ret_changes ret = changes_of g d)
     end.
Proof.
  intros Hok.
  destruct (state_run_spec g k d log) as (ev0 & _ & _ & _ & Hrun).
  destruct (fst (state_check g k d log)) as [found | e].
  2: { rewrite Hrun in Hok. discriminate. }
  destruct (converged g found).
  { rewrite Hrun in Hok. injection Hok as <-. simpl. auto. }
  destruct opts_test eqn:Htest.
  { rewrite Hrun in Hok. injection Hok as <-. simpl. auto. }
  destruct Hrun as (ev1 & _ & _ & Hrun). rewrite Hrun in Hok. simpl in Hok.
  destruct (shell (ev_argv ev1) (ev_runas ev1) (log ++ [ev0])) as [resp | e];
    [| discriminate].
  destruct (_format_response resp (status_label g)) as [result | e]; [| discriminate].
  injection Hok as <-. unfold applied_ret.
  destruct (result !! "Error"); simpl; auto.
Qed.

(** X8: the state layer never overrides the execution identity: every command
    of a present/absent invocation runs as [salt.utils.get_user()]. *)
Theorem state_layer_runs_as_invoking_user (g : goal) (k : kind) (d : descriptor)
    (log : list cmd_event) :
  exists evs,
    snd (state_run g k d log) = log ++ evs
    /\ evs <> []
    /\ Forall (fun ev => ev_runas ev = get_user) evs.
Proof.
  destruct g, k; simpl; unfold_states; unfold_run; simpl;
    repeat split_match;
    (eexists; split;
       [ simpl; rewrite <- ?app_assoc; reflexivity
       | split; [ discriminate | repeat constructor ] ]).
Qed.

(** X9: attributes never reach an existing entity: two descriptors of the
    same entity on the same connection, however they differ in type,
    durable, internal, auto_delete and arguments, are treated alike by the
    existence check, by [absent], by every dry run, and by [present] unless
    the check reports the entity missing. *)
Theorem attributes_only_matter_on_creation (g : goal) (k : kind) (d d' : descriptor)
    (log : list cmd_event) :
  same_identity d d' ->
  g = Absent \/ opts_test = true \/ fst (state_check g k d log) <> Ok false ->
  state_check g k d log = state_check g k d' log
  /\ state_run g k d log = state_run g k d' log.
Proof.
  intros Hsame Hquiet.
  assert (Hcheck : forall g0, state_check g0 k d log = state_check g0 k d' log).
  { destruct d, d'. unfold same_identity in Hsame. simpl in Hsame.
    destruct Hsame as (-> & -> & -> & -> & -> & -> & -> & ->).
    intros g0. destruct g0, k; reflexivity. }
  split; [apply Hcheck |].
  destruct g.
  2: { destruct d, d'. unfold same_identity in Hsame. simpl in Hsame.
       destruct Hsame as (-> & -> & -> & -> & -> & -> & -> & ->).
       destruct k; reflexivity. }
  destruct Hquiet as [[=] | Hquiet].
  destruct (state_run_spec Present k d log) as (ev0 & Hlog & _ & _ & Hrun).
  destruct (state_run_spec Present k d' log) as (ev0' & Hlog' & _ & _ & Hrun').
  rewrite <- (Hcheck Present) in Hlog', Hrun'.
  rewrite Hlog in Hlog'. apply app_inv_head in Hlog'. injection Hlog' as <-.
  assert (Hnoop : noop_ret Present k d = noop_ret Present k d').
  { unfold noop_ret, already_exists_comment.
    destruct Hsame as (-> & _ & _ & _ & _ & _ & _ & ->). reflexivity. }
  assert (Hpending : pending_ret Present k d = pending_ret Present k d').
  { unfold pending_ret, changes_of.
    destruct Hsame as (-> & _ & _ & _ & _ & _ & _ & ->). reflexivity. }
  destruct (fst (state_check Present k d log)) as [[|] | e];
    cbn [converged] in Hrun, Hrun'.
  - rewrite Hrun, Hrun', Hnoop. reflexivity.
  - destruct Hquiet as [Htest | Hne]; [| contradiction].
    rewrite Htest in Hrun, Hrun'. rewrite Hrun, Hrun', Hpending. reflexivity.
  - rewrite Hrun, Hrun'. reflexivity.
Qed.

(** *** Dict responses to a mutating call *)

(** X10: when the add or delete command is answered with a dict, a nonzero
    return code raises; with return code 0 the captured output replaces the
    status label, so the state reports failure when the output is exactly
    "Error", and otherwise success with the change record, keeping its
    comment empty unless the output is exactly the status label. *)
Theorem mutation_dict_response (g : goal) (k : kind) (d : descriptor)
    (log : list cmd_event) (found : bool) (log1 : list cmd_event)
    (retcode : Z) (stdout : string) :
  opts_test = false ->
  state_check g k d log = (Ok found, log1) ->
  converged g found = false ->
  mutation_answer g log1 (Ok (RespDict retcode stdout)) ->
  fst (state_run g k d log) =
    if decide (retcode = 0) then
      Ok (if decide (stdout = "Error")
          then StateRet (d_name d) (Some false) (RespDict retcode stdout) ∅
          else StateRet (d_name d) (Some true)
                 (if decide (stdout = status_label g)
                  then RespDict retcode stdout else RespText "")
                 (changes_of g d))
    else Raise (CommandExecutionError (RespDict retcode stdout)).
Proof.
  intros Htest Hcheck Hconv Hans.
  destruct (state_run_spec g k d log) as (ev0 & Hlog & _ & _ & Hrun).
  rewrite Hcheck in Hlog, Hrun. simpl in Hlog, Hrun. subst log1.
  rewrite Hconv, Htest in Hrun. destruct Hrun as ([argv runas] & Hact & _ & ->).
  simpl. rewrite (Hans _ _ Hact). simpl.
  destruct (decide (retcode = 0)) as [-> | Hrc]; simpl.
  2: { destruct (Z.eqb_spec retcode 0); [contradiction | reflexivity]. }
  unfold applied_ret.
  destruct (decide (stdout = "Error")) as [-> | Herr].
  - rewrite lookup_singleton_eq. reflexivity.
  - rewrite lookup_singleton_ne by exact Herr.
    destruct (decide (stdout = status_label g)) as [-> | Hlabel].
    + rewrite lookup_singleton_eq. reflexivity.
    + rewrite lookup_singleton_ne by exact Hlabel. reflexivity.
Qed.

(** *** Parsed listings *)

Lemma append_nil_r s : s +:+ "" = s.
Proof.
  induction s as [| c s IH]; [reflexivity |].
  change (String c s +:+ "") with (String c (s +:+ "")). rewrite IH. reflexivity.
Qed.

Lemma append_assoc_str a b c : (a +:+ b) +:+ c = a +:+ (b +:+ c).
Proof.
  induction a as [| x a IH]; [reflexivity |].
  change ((String x a +:+ b) +:+ c) with (String x ((a +:+ b) +:+ c)).
  rewrite IH. reflexivity.
Qed.

Lemma str_chars_app a b : str_chars (a +:+ b) = str_chars a ++ str_chars b.
Proof.
  induction a as [| x a IH]; [reflexivity |].
  change (str_chars (String x a +:+ b)) with (x :: str_chars (a +:+ b)).
  rewrite IH. reflexivity.
Qed.

Lemma split_tab_once_spec row key values :
  split_tab_once row = Some (key, values) ->
  row = key +:+ TAB +:+ values /\ str_in TAB key = false.
Proof.
  revert key values. induction row as [| c rest IH]; intros key values; simpl;
    [discriminate |].
  destruct (is_tab c) eqn:Hc.
  - intros [= <- <-]. apply is_tab_spec in Hc. subst c. split; reflexivity.
  - destruct (split_tab_once rest) as [[key' values'] |]; [| discriminate].
    intros [= <- <-]. destruct (IH key' values' eq_refl) as [-> Hkey].
    split; [reflexivity |]. rewrite str_in_cons, prefix_TAB, Hc. exact Hkey.
Qed.

Lemma split_tab_once_some key values :
  str_in TAB key = false ->
  split_tab_once (key +:+ TAB +:+ values) = Some (key, values).
Proof.
  induction key as [| c key IH].
  - intros _. reflexivity.
  - rewrite str_in_cons, prefix_TAB. destruct (is_tab c) eqn:Hc; [discriminate |].
    intros Hkey. simpl. rewrite Hc, (IH Hkey). reflexivity.
Qed.

Lemma split_tab_once_no_tab row : split_tab_once row = None -> str_in TAB row = false.
Proof.
  induction row as [| c rest IH]; [reflexivity |]. simpl split_tab_once.
  rewrite str_in_cons, prefix_TAB. destruct (is_tab c); [discriminate |].
  destruct (split_tab_once rest) as [[? ?] |]; [discriminate | auto].
Qed.

Lemma split_tab_nonempty s : split_tab s <> [].
Proof.
  destruct s as [| c s]; simpl; [discriminate |].
  destruct (is_tab c); [discriminate |]. destruct (split_tab s); discriminate.
Qed.

Lemma join_split_tab s : join_tab (split_tab s) = s.
Proof.
  induction s as [| c s IH]; [reflexivity |]. simpl.
  pose proof (split_tab_nonempty s) as Hne.
  destruct (is_tab c) eqn:Hc.
  - apply is_tab_spec in Hc. subst c.
    destruct (split_tab s) as [| field fields]; [contradiction |].
    change (join_tab ("" :: field :: fields))
      with ("" +:+ TAB +:+ join_tab (field :: fields)).
    rewrite IH. reflexivity.
  - destruct (split_tab s) as [| field fields]; [contradiction |].
    destruct fields as [| field' fields].
    + simpl in IH. subst s. reflexivity.
    + change (join_tab (String c field :: field' :: fields))
        with (String c (field +:+ TAB +:+ join_tab (field' :: fields))).
      change (join_tab (field :: field' :: fields))
        with (field +:+ TAB +:+ join_tab (field' :: fields)) in IH.
      rewrite IH. reflexivity.
Qed.

Lemma split_tab_fields s : Forall (fun field => str_in TAB field = false) (split_tab s).
Proof.
  induction s as [| c s IH]; simpl; [repeat constructor |].
  destruct (is_tab c) eqn:Hc; [constructor; [reflexivity | exact IH] |].
  destruct (split_tab s) as [| field fields].
  - constructor; [| constructor]. rewrite str_in_cons, prefix_TAB, Hc. reflexivity.
  - inversion IH as [| ? ? Hfield Hfields]; subst. constructor; [| exact Hfields].
    rewrite str_in_cons, prefix_TAB, Hc. exact Hfield.
Qed.

(** The mapper [_output_to_dict] works with. *)
Lemma output_row_step (values_mapper : option (string -> cell)) ret row :
  _output_to_dict_row
    (match values_mapper with
     | None => fun s => CList (split_tab s)
     | Some f => f
     end) ret row
  = <[ row_key row := row_value values_mapper row ]> ret.
Proof.
  unfold _output_to_dict_row, row_key, row_value.
  destruct (split_tab_once row) as [[key values] |]; [| reflexivity].
  destruct values_mapper; reflexivity.
Qed.

Lemma output_rows_dom f rows (ret : gmap string cell) :
  dom (fold_left (_output_to_dict_row f) rows ret)
  = dom ret ∪ list_to_set (row_key <$> rows).
Proof.
  revert ret. induction rows as [| row rows IH]; intros ret; simpl.
  - rewrite (right_id_L ∅ (∪)). reflexivity.
  - rewrite IH. destruct (output_row_key f ret row) as [value ->].
    rewrite dom_insert_L, (comm_L (∪) {[row_key row]} (dom ret)).
    rewrite <- (assoc_L (∪)). reflexivity.
Qed.

(** X11: the keys of the parsed dict are exactly the keys of the data rows:
    for each row that survives the filter, the text before its first tab, or
    the whole row when it has no tab. *)
Theorem output_keys_are_row_keys (cmdoutput : string)
    (values_mapper : option (string -> cell)) :
  dom (_output_to_dict cmdoutput values_mapper)
  = list_to_set (row_key <$> _strip_listing_to_done (splitlines cmdoutput)).
Proof.
  unfold _output_to_dict. rewrite output_rows_dom, dom_empty_L.
  apply (left_id_L ∅ (∪)).
Qed.

(** X12: when several data rows are filed under one key, the last of them
    wins: the dict holds the value of a row under its key provided no later
    row has that key. *)
Theorem last_row_wins (cmdoutput : string) (values_mapper : option (string -> cell))
    (before : list string) (row : string) (after : list string) :
  _strip_listing_to_done (splitlines cmdoutput) = before ++ row :: after ->
  Forall (fun later => row_key later <> row_key row) after ->
  _output_to_dict cmdoutput values_mapper !! row_key row
  = Some (row_value values_mapper row).
Proof.
  intros Hrows Hafter. unfold _output_to_dict. rewrite Hrows, fold_left_app. simpl.
  rewrite output_rows_keep by exact Hafter.
  rewrite output_row_step. apply lookup_insert_eq.
Qed.

(** X13: with the default mapper, a row [key TAB values] whose key has no
    tab is filed under [key] with the tab-separated fields of [values]; the
    fields hold no tab and joined by tabs they give [values] back.  An
    output with this single data row parses to that one entry. *)
Theorem tabbed_row_fields (key values : string) :
  str_in TAB key = false ->
  row_key (key +:+ TAB +:+ values) = key
  /\ row_value None (key +:+ TAB +:+ values) = CList (split_tab values)
  /\ join_tab (split_tab values) = values
  /\ Forall (fun field => str_in TAB field = false) (split_tab values)
  /\ forall cmdoutput,
       _strip_listing_to_done (splitlines cmdoutput) = [key +:+ TAB +:+ values] ->
       _output_to_dict cmdoutput None = {[ key := CList (split_tab values) ]}.
Proof.
  intros Hkey. pose proof (split_tab_once_some key values Hkey) as Hsplit.
  assert (Hk : row_key (key +:+ TAB +:+ values) = key)
    by (unfold row_key; rewrite Hsplit; reflexivity).
  assert (Hv : row_value None (key +:+ TAB +:+ values) = CList (split_tab values))
    by (unfold row_value; rewrite Hsplit; reflexivity).
  repeat split; auto using join_split_tab, split_tab_fields.
  intros cmdoutput Hrows. unfold _output_to_dict. rewrite Hrows. simpl.
  rewrite (output_row_step None), Hk, Hv. reflexivity.
Qed.

Lemma splitlines_no_break s :
  Forall (fun line => Forall (fun c => is_linebreak c = false) (str_chars line))
    (splitlines s).
Proof.
  remember (String.length s) as n eqn:Hn.
  assert (Hle : (String.length s <= n)%nat) by lia. clear Hn. revert s Hle.
  induction n as [| n IH]; intros s Hle.
  - destruct s; [constructor | simpl in Hle; lia].
  - destruct s as [| c rest]; [constructor |]. simpl in Hle.
    simpl splitlines. destruct (is_linebreak c) eqn:Hc.
    + constructor; [constructor |].
      destruct rest as [| c' rest']; [constructor |]. simpl in Hle.
      destruct (is_cr c && is_lf c'); apply IH; simpl; lia.
    + pose proof (IH rest ltac:(lia)) as Hrest.
      destruct (splitlines rest) as [| line lines].
      * repeat constructor. exact Hc.
      * inversion Hrest as [| ? ? Hline Hlines]; subst.
        constructor; [| exact Hlines]. simpl. constructor; [exact Hc | exact Hline].
Qed.

Lemma row_key_prefix row :
  exists rest, row = row_key row +:+ rest /\ str_in TAB (row_key row) = false.
Proof.
  unfold row_key. destruct (split_tab_once row) as [[key values] |] eqn:Hsplit.
  - apply split_tab_once_spec in Hsplit as [-> Hkey]. exists (TAB +:+ values). auto.
  - exists "". rewrite append_nil_r. auto using split_tab_once_no_tab.
Qed.

(** X14: the keys of the parsed dict are clean: none holds a tab or a line
    break, none contains "...done" and none starts with "WARNING:". *)
Theorem output_keys_are_clean (cmdoutput : string)
    (values_mapper : option (string -> cell)) (key : string) :
  is_Some (_output_to_dict cmdoutput values_mapper !! key) ->
  str_in TAB key = false
  /\ Forall (fun c => is_linebreak c = false) (str_chars key)
  /\ str_in "...done" key = false
  /\ startswith key "WARNING:" = false.
Proof.
  intros Hkey. apply elem_of_dom in Hkey.
  unfold _output_to_dict in Hkey. rewrite output_rows_dom in Hkey.
  apply elem_of_union in Hkey as [Hkey | Hkey];
    [rewrite dom_empty_L in Hkey; destruct (not_elem_of_empty _ Hkey) |].
  apply elem_of_list_to_set, list_elem_of_fmap in Hkey as (row & -> & Hrow).
  apply list_elem_of_In in Hrow. unfold _strip_listing_to_done in Hrow.
  apply filter_In in Hrow as [Hline Hsafe].
  destruct (row_key_prefix row) as (rest & Hrest & Htab).
  split; [exact Htab |]. split.
  - pose proof (splitlines_no_break cmdoutput) as Hlines.
    rewrite List.Forall_forall in Hlines. specialize (Hlines row Hline).
    rewrite Hrest, str_chars_app in Hlines. apply Forall_app in Hlines. tauto.
  - unfold _safe_output in Hsafe. simpl in Hsafe.
    apply negb_true_iff in Hsafe. rewrite !orb_false_iff in Hsafe.
    destruct Hsafe as (_ & Hdone & Hwarn & _). split.
    + destruct (str_in "...done" (row_key row)) eqn:Hin; [| reflexivity].
      apply str_in_spec in Hin as (pre & post & Hin).
      assert (Hrowin : str_in "...done" row = true).
      { apply str_in_spec. exists pre, (post +:+ rest).
        rewrite Hrest, Hin, !append_assoc_str. reflexivity. }
      congruence.
    + unfold startswith in *.
      destruct (String.prefix "WARNING:" (row_key row)) eqn:Hp; [| reflexivity].
      apply prefix_spec in Hp as [post Hp].
      assert (Hrowp : String.prefix "WARNING:" row = true).
      { apply prefix_spec. exists (post +:+ rest).
        rewrite Hrest, Hp, append_assoc_str. reflexivity. }
      congruence.
Qed.

(** *** Arguments of a declaration *)



End Coverage.

(** *** Loading the modules *)

(** X16: on a host with rabbitmqadmin but without rabbitmqctl the three state
    modules load while the client module they call through [__salt__] does
    not. *)
Theorem states_load_without_client (which : string -> option string) :
  which "rabbitmqadmin" <> None ->
  which "rabbitmqctl" = None ->
  rabbitmq_exchange.__virtual__ which = true
  /\ rabbitmq_queue.__virtual__ which = true
  /\ rabbitmq_binding.__virtual__ which = true
  /\ rabbitmq_extended.__virtual__ which = false.
Proof.
  intros Hadmin Hctl.
  unfold rabbitmq_exchange.__virtual__, rabbitmq_queue.__virtual__,
    rabbitmq_binding.__virtual__, rabbitmq_extended.__virtual__.
  rewrite Hctl. rewrite bool_decide_eq_false_2 by exact Hadmin.
  rewrite bool_decide_eq_true_2 by reflexivity. auto.
Qed.

(** *** The further properties at work on the broker stand-in *)

Lemma demo_listing_answer listing reply test log :
  @listing_answer (demo_salt listing reply test) log (Ok (RespText listing)).
Proof.
  intros argv runas Hlist. simpl. unfold demo_shell. rewrite Hlist. reflexivity.
Qed.

Lemma demo_mutation_answer g listing reply test log :
  @mutation_answer (demo_salt listing reply test) g log (Ok reply).
Proof.
  intros argv runas Hact. simpl. unfold demo_shell.
  destruct (mutation_is_mutating g _ Hact) as (_ & -> & _). reflexivity.
Qed.

Lemma exists_by_name_only_witness :
  let S := demo_salt "[orders]" (RespText "done") false in
  let items := [JObj [("name", JStr "orders"); ("vhost", JStr "/")]] in
  @listing_answer S [] (Ok (RespText "[orders]"))
  /\ @json_loads S "[orders]" = Some (JArr items)
  /\ Forall name_record items
  /\ exists found,
       fst (@rabbitmq_extended.exchange_exists S "orders" "localhost" 15672
              "guest" "guest" "/" None []) = Ok found
       /\ fst (@rabbitmq_extended.queue_exists S "orders" "localhost" 15672
                 "guest" "guest" "/" None []) = Ok found
       /\ (found = true <-> Exists (named "orders") items).
Proof.
  intros S items.
  assert (Hrecs : Forall name_record items)
    by (repeat constructor; eexists; reflexivity).
  split; [apply demo_listing_answer |]. split; [reflexivity |]. split; [exact Hrecs |].
  exact (@exists_by_name_only S "orders" "localhost" 15672 "guest" "guest" "/" None []
           "[orders]" items (demo_listing_answer _ _ _ _) eq_refl Hrecs).
Defined.

Lemma first_record_decides_witness :
  let S := demo_salt "[orders]" (RespText "done") false in
  let item := JObj [("name", JStr "orders"); ("vhost", JStr "/")] in
  @listing_answer S [] (Ok (RespText "[orders]"))
  /\ @json_loads S "[orders]" = Some (JArr ([] ++ item :: []))
  /\ fst (@rabbitmq_extended.exchange_exists S "orders" "localhost" 15672
            "guest" "guest" "/" None []) = Ok true.
Proof.
  intros S item.
  split; [apply demo_listing_answer |]. split; [reflexivity |].
  exact (proj1 (@first_record_decides S "orders" "localhost" 15672 "guest" "guest" "/"
                  None [] "[orders]" [] item [] (demo_listing_answer _ _ _ _) eq_refl
                  (List.Forall_nil _))).
Defined.

Lemma check_on_unusable_listing_witness :
  let S := demo_salt "rabbitmqadmin: command not found" (RespText "done") false in
  @listing_answer S [] (Ok (RespText "rabbitmqadmin: command not found"))
  /\ fst (@state_check S Present Queue demo_descriptor []) = Raise ValueError.
Proof.
  intros S. split; [apply demo_listing_answer |].
  exact (@check_on_unusable_listing S Present Queue demo_descriptor [] _
           (demo_listing_answer _ _ _ _)).
Defined.

Lemma check_error_propagates_witness :
  let S := demo_salt "rabbitmqadmin: command not found" (RespText "done") false in
  fst (@state_check S Absent Exchange demo_descriptor []) = Raise ValueError
  /\ exists ev,
       @state_run S Absent Exchange demo_descriptor [] = (Raise ValueError, [] ++ [ev])
       /\ is_listing ev = true.
Proof.
  intros S. split; [reflexivity |].
  exact (@check_error_propagates S Absent Exchange demo_descriptor [] ValueError eq_refl).
Defined.

Lemma absent_deletes_first_match_witness :
  let S := demo_salt "[orders->invoices]" (RespText "done") false in
  @opts_test S = false
  /\ @listing_answer S [] (Ok (RespText "[orders->invoices]"))
  /\ @json_loads S "[orders->invoices]" = Some (JArr ([] ++ orders_binding "eu" :: []))
  /\ same_binding "orders" "invoices" "queue" "eu" "/" (orders_binding "eu")
  /\ getitem (orders_binding "eu") "properties_key" = Ok (JStr "eu")
  /\ "eu" <> ""
  /\ snd (@rabbitmq_binding.absent S "orders" "invoices" "eu" "queue" "guest" "guest"
            15672 "/" [])
     = [] ++
       [ CmdEvent
           [AStr "rabbitmqadmin"; AStr "list"; AStr "bindings"; AStr "-H";
            AStr "localhost"; AStr "-P"; AInt 15672; AStr "-u"; AStr "guest";
            AStr "-p"; AStr "guest"; AStr "-V"; AStr "/"; AStr "--format=raw_json"]
           (@get_user S);
         CmdEvent
           [AStr "rabbitmqadmin"; AStr "delete"; AStr "binding";
            AStr ("source=" +:+ "orders"); AStr ("destination=" +:+ "invoices");
            AStr ("destination_type=" +:+ "queue"); AStr ("properties_key=" +:+ "eu");
            AStr "-H"; AStr "localhost"; AStr "-P"; AInt 15672; AStr "-u"; AStr "guest";
            AStr "-p"; AStr "guest"; AStr "-V"; AStr "/"; AStr "--format=table"]
           (@get_user S) ].
Proof.
  intros S.
  assert (Hsame : same_binding "orders" "invoices" "queue" "eu" "/" (orders_binding "eu"))
    by (repeat split; reflexivity).
  assert (Hne : "eu" <> "") by discriminate.
  split; [reflexivity |]. split; [apply demo_listing_answer |]. split; [reflexivity |].
  split; [exact Hsame |]. split; [reflexivity |]. split; [exact Hne |].
  exact (@absent_deletes_first_match S "orders" "invoices" "eu" "queue" "guest" "guest"
           15672 "/" [] "[orders->invoices]" [] (orders_binding "eu") [] "eu"
           eq_refl (demo_listing_answer _ _ _ _) eq_refl (List.Forall_nil _) Hsame
           eq_refl Hne).
Defined.

Lemma state_ret_invariants_witness :
  let S := demo_salt "[]" (RespText "done") true in
  let ret := StateRet "orders" None
               (RespText "Queue 'orders' for vhost '/' will be created.")
               {[ "old" := ""; "new" := "orders" ]} in
  fst (@state_run S Present Queue demo_descriptor []) = Ok ret
  /\ ret_name ret = "orders"
  /\ @opts_test S = true
  /\ ret_changes ret = changes_of Present demo_descriptor.
Proof.
  intros S ret.
  assert (Hrun : fst (@state_run S Present Queue demo_descriptor []) = Ok ret)
    by (vm_compute; reflexivity).
  split; [exact Hrun |].
  destruct (@state_ret_invariants S Present Queue demo_descriptor [] ret Hrun)
    as [Hname Hshape].
  split; [exact Hname |]. exact Hshape.
Defined.

Lemma attributes_only_matter_on_creation_witness :
  let S := demo_salt "[orders]" (RespText "done") false in
  let d' := Descriptor "orders" "invoices" "queue" "eu" "guest" "guest" 15672 "/"
              "topic" true true true [ {[ "x-message-ttl" := JNum 86400000 ]} ] in
  same_identity demo_descriptor d'
  /\ fst (@state_check S Present Exchange demo_descriptor []) <> Ok false
  /\ @state_run S Present Exchange demo_descriptor []
     = @state_run S Present Exchange d' [].
Proof.
  intros S d'.
  assert (Hsame : same_identity demo_descriptor d') by (repeat split; reflexivity).
  assert (Hfound : fst (@state_check S Present Exchange demo_descriptor []) <> Ok false)
    by (vm_compute; discriminate).
  split; [exact Hsame |]. split; [exact Hfound |].
  exact (proj2 (@attributes_only_matter_on_creation S Present Exchange demo_descriptor
                  d' [] Hsame (or_intror (or_intror Hfound)))).
Defined.

Lemma mutation_dict_response_witness :
  let S := demo_salt "[]" (RespDict 0 "exchange declared") false in
  let log1 := snd (@state_check S Present Exchange demo_descriptor []) in
  @opts_test S = false
  /\ @state_check S Present Exchange demo_descriptor [] = (Ok false, log1)
  /\ converged Present false = false
  /\ @mutation_answer S Present log1 (Ok (RespDict 0 "exchange declared"))
  /\ fst (@state_run S Present Exchange demo_descriptor [])
     = Ok (StateRet "orders" (Some true) (RespText "")
             {[ "old" := ""; "new" := "orders" ]}).
Proof.
  intros S log1.
  split; [reflexivity |]. split; [vm_compute; reflexivity |]. split; [reflexivity |].
  split; [apply demo_mutation_answer |].
  exact (@mutation_dict_response S Present Exchange demo_descriptor [] false log1 0
           "exchange declared" eq_refl eq_refl eq_refl (demo_mutation_answer _ _ _ _ _)).
Defined.

Lemma last_row_wins_witness :
  let row := "staging" +:+ TAB +:+ ".*" +:+ TAB +:+ "" +:+ TAB +:+ ".*" in
  rabbitmq_extended._strip_listing_to_done (rabbitmq_extended.splitlines demo_listing)
  = ["/"] ++ row :: []
  /\ rabbitmq_extended._output_to_dict demo_listing None !! "staging"
     = Some (rabbitmq_extended.CList [".*"; ""; ".*"]).
Proof.
  intros row. split; [reflexivity |].
  exact (last_row_wins demo_listing None ["/"] row [] eq_refl (List.Forall_nil _)).
Defined.

Lemma tabbed_row_fields_witness :
  str_in TAB "staging" = false
  /\ row_key ("staging" +:+ TAB +:+ ".*" +:+ TAB +:+ ".*") = "staging"
  /\ join_tab (rabbitmq_extended.split_tab (".*" +:+ TAB +:+ ".*"))
     = ".*" +:+ TAB +:+ ".*".
Proof.
  split; [reflexivity |].
  destruct (tabbed_row_fields "staging" (".*" +:+ TAB +:+ ".*") eq_refl)
    as (Hkey & _ & Hjoin & _).
  split; [exact Hkey | exact Hjoin].
Defined.

Lemma output_keys_are_clean_witness :
  is_Some (rabbitmq_extended._output_to_dict demo_listing None !! "staging")
  /\ str_in "...done" "staging" = false.
Proof.
  assert (Hkey : is_Some (rabbitmq_extended._output_to_dict demo_listing None
                            !! "staging"))
    by (eexists; vm_compute; reflexivity).
  split; [exact Hkey |].
  exact (proj1 (proj2 (proj2 (output_keys_are_clean demo_listing None "staging" Hkey)))).
Defined.


Lemma states_load_without_client_witness :
  admin_only "rabbitmqadmin" <> None
  /\ admin_only "rabbitmqctl" = None
  /\ rabbitmq_exchange.__virtual__ admin_only = true
  /\ rabbitmq_extended.__virtual__ admin_only = false.
Proof.
  assert (Hadmin : admin_only "rabbitmqadmin" <> None) by discriminate.
  split; [exact Hadmin |]. split; [reflexivity |].
  destruct (states_load_without_client admin_only Hadmin eq_refl)
    as (Hexchange & _ & _ & Hclient).
  split; [exact Hexchange | exact Hclient].
Defined.


Lemma mutation_success_reports_change_witness :
  let S := demo_salt "[orders]" (RespText "queue deleted") false in
  let log1 := snd (@state_check S Absent Queue demo_descriptor []) in
  @opts_test S = false
  /\ @state_check S Absent Queue demo_descriptor [] = (Ok true, log1)
  /\ converged Absent true = false
  /\ str_in "Error" "queue deleted" = false
  /\ fst (@state_run S Absent Queue demo_descriptor [])
     = Ok (StateRet "orders" (Some true) (RespText "queue deleted")
             (changes_of Absent demo_descriptor)).
Proof.
  intros S log1.
  split; [reflexivity |]. split; [vm_compute; reflexivity |]. split; [reflexivity |].
  split; [reflexivity |].
  exact (@mutation_success_reports_change S Absent Queue demo_descriptor [] true log1
           "queue deleted" eq_refl eq_refl eq_refl
           (demo_mutation_answer Absent _ _ _ _) eq_refl).
Defined.
